(** * A verification model of the data pipeline of canada-energy-future

    The in-app pipeline (the [useData], [useDimensions], [useFilteredData]
    and [useChartData] hooks), the build-time parser [parse.mjs] and the
    per-selection cache of [useDimensionData] in [src/App.tsx], embedded
    shallowly.

    JavaScript strings are modelled as Rocq [string]s: sequences of 8-bit
    code units, so character comparison is code-unit comparison as in
    [Array.prototype.sort]. JavaScript numbers are modelled by [jsnum]:
    NaN, the two infinities, and finite values kept as the exact decimal
    [m * 10^e] that the text denotes. Rounding to binary64 is modelled only
    where it changes finiteness (overflow to an infinity); the rounding of
    finite values and the sign of zero are not modelled. *)

From Stdlib Require Import String Ascii List ZArith QArith Lia Bool.
From Stdlib Require Import Permutation Sorted.
Import ListNotations.

(* ------------------------------------------------------------------ *)
(** ** JavaScript string primitives *)

Module JsString.

(** Characters removed by [String.prototype.trim] (WhiteSpace and
    LineTerminator) that fit in one 8-bit code unit. *)
Definition is_js_space (c : ascii) : bool :=
  existsb (N.eqb (N_of_ascii c)) [9; 10; 11; 12; 13; 32; 160]%N.

Fixpoint drop_space (s : list ascii) : list ascii :=
  match s with
  | c :: s' => if is_js_space c then drop_space s' else s
  | [] => []
  end.

(** [s.trim()] *)
Definition trim (s : string) : string :=
  string_of_list_ascii
    (rev (drop_space (rev (drop_space (list_ascii_of_string s))))).

(** [s.split(/,/g)] for a one-character separator. [cur] holds the
    current piece, reversed. *)
Fixpoint split_char_aux (sep : ascii) (cur : list ascii) (s : list ascii)
  : list (list ascii) :=
  match s with
  | [] => [rev cur]
  | c :: s' =>
      if Ascii.eqb c sep then rev cur :: split_char_aux sep [] s'
      else split_char_aux sep (c :: cur) s'
  end.

Definition split_char (sep : ascii) (s : string) : list string :=
  map string_of_list_ascii (split_char_aux sep [] (list_ascii_of_string s)).

(** [s.split(/\r?\n/g)]: a piece ends at each LF, and one CR just before
    that LF belongs to the separator. *)
Fixpoint split_crlf_opt_aux (cur : list ascii) (s : list ascii)
  : list (list ascii) :=
  match s with
  | [] => [rev cur]
  | c :: s' =>
      if Ascii.eqb c "010"%char then
        (match cur with
         | r :: cur' => if Ascii.eqb r "013"%char then rev cur' else rev cur
         | [] => []
         end) :: split_crlf_opt_aux [] s'
      else split_crlf_opt_aux (c :: cur) s'
  end.

Definition split_lf (s : string) : list string :=
  map string_of_list_ascii (split_crlf_opt_aux [] (list_ascii_of_string s)).

(** [s.split(/\r\n/g)]: pieces end only at a CR immediately followed by
    an LF, matched left to right. *)
Fixpoint split_crlf_aux (cur : list ascii) (s : list ascii)
  : list (list ascii) :=
  match s with
  | [] => [rev cur]
  | c :: s' =>
      match s' with
      | d :: s'' =>
          if Ascii.eqb c "013"%char && Ascii.eqb d "010"%char
          then rev cur :: split_crlf_aux [] s''
          else split_crlf_aux (c :: cur) s'
      | [] => split_crlf_aux (c :: cur) s'
      end
  end.

Definition split_crlf (s : string) : list string :=
  map string_of_list_ascii (split_crlf_aux [] (list_ascii_of_string s)).

(** [s.replace] of every double quote by the empty string. *)
Definition remove_quotes (s : string) : string :=
  string_of_list_ascii
    (filter (fun c => negb (Ascii.eqb c "034"%char)) (list_ascii_of_string s)).

(** [s.substring(start, end)]: both bounds clamped to [0, length], then
    swapped when [start > end]. *)
Definition substring_js (s : string) (st en : Z) : string :=
  let len := Z.of_nat (String.length s) in
  let a := Z.min (Z.max st 0) len in
  let b := Z.min (Z.max en 0) len in
  String.substring (Z.to_nat (Z.min a b)) (Z.to_nat (Z.max a b - Z.min a b)) s.

Definition starts_with_quote (s : string) : bool :=
  match s with
  | String c _ => Ascii.eqb c "034"%char
  | EmptyString => false
  end.

Definition ends_with_quote (s : string) : bool :=
  starts_with_quote (string_of_list_ascii (rev (list_ascii_of_string s))).

(** Whether [s] contains the two characters CR LF in a row. *)
Fixpoint has_crlf (s : list ascii) : bool :=
  match s with
  | c :: ((d :: _) as s') =>
      (Ascii.eqb c "013"%char && Ascii.eqb d "010"%char) || has_crlf s'
  | _ => false
  end.

End JsString.

(* ------------------------------------------------------------------ *)
(** ** JavaScript numbers *)

Module JsNumber.

Local Open Scope Z_scope.

Inductive jsnum : Type :=
| JNaN
| JInf (neg : bool)
| JFin (m : Z) (e : Z).   (** the finite value [m * 10^e] *)

Definition fin_value (m e : Z) : Q := inject_Z m * Qpower (inject_Z 10) e.

(** Magnitudes at or above [2^1024 - 2^970] round to an infinity under
    round-to-nearest-even in binary64. *)
Definition overflow_bound : Q := inject_Z (2 ^ 1024 - 2 ^ 970).

(** The number of sign [neg] and magnitude [m * 10^e] ([m >= 0]). *)
Definition round_fin (neg : bool) (m e : Z) : jsnum :=
  if Qle_bool overflow_bound (fin_value m e) then JInf neg
  else JFin (if neg then - m else m) e.

Definition code (c : ascii) : Z := Z.of_N (N_of_ascii c).

Definition is_digit (c : ascii) : bool := (48 <=? code c) && (code c <=? 57).

(** The value of a digit in bases up to 16 (letters of either case). *)
Definition digit_value (c : ascii) : Z :=
  if is_digit c then code c - 48
  else if (97 <=? code c) && (code c <=? 102) then code c - 87
  else if (65 <=? code c) && (code c <=? 70) then code c - 55
  else 99.

Definition is_digit_in (base : Z) (c : ascii) : bool :=
  digit_value c <? base.

Definition digits_value (base : Z) (ds : list ascii) : Z :=
  fold_left (fun acc d => acc * base + digit_value d) ds 0.

Fixpoint take_digits (ok : ascii -> bool) (s : list ascii)
  : list ascii * list ascii :=
  match s with
  | c :: s' =>
      if ok c then let (d, r) := take_digits ok s' in (c :: d, r)
      else ([], s)
  | [] => ([], [])
  end.

Definition is_char (c : ascii) (n : Z) : bool := code c =? n.

(** ExponentPart, which must end the literal; [Some 0] when absent. *)
Definition parse_exponent (s : list ascii) : option Z :=
  match s with
  | [] => Some 0
  | c :: s' =>
      if is_char c 101 || is_char c 69 then
        let '(sg, s'') :=
          match s' with
          | x :: r => if is_char x 43 then (1, r)
                      else if is_char x 45 then (-1, r) else (1, s')
          | [] => (1, s')
          end in
        let '(d, r) := take_digits is_digit s'' in
        match d, r with
        | _ :: _, [] => Some (sg * digits_value 10 d)
        | _, _ => None
        end
      else None
  end.

(** StrUnsignedDecimalLiteral without [Infinity]: mantissa and power of
    ten. *)
Definition parse_unsigned_decimal (s : list ascii) : option (Z * Z) :=
  let '(d1, r1) := take_digits is_digit s in
  match r1 with
  | c :: r2 =>
      if is_char c 46 then
        let '(d2, r3) := take_digits is_digit r2 in
        match d1 ++ d2 with
        | [] => None
        | ds =>
            match parse_exponent r3 with
            | Some x => Some (digits_value 10 ds, x - Z.of_nat (List.length d2))
            | None => None
            end
        end
      else
        match d1, parse_exponent r1 with
        | _ :: _, Some x => Some (digits_value 10 d1, x)
        | _, _ => None
        end
  | [] =>
      match d1 with
      | [] => None
      | _ => Some (digits_value 10 d1, 0)
      end
  end.

(** NonDecimalIntegerLiteral: [0x], [0o], [0b] prefixes, no sign. *)
Definition parse_non_decimal (s : list ascii) : option Z :=
  match s with
  | z :: x :: ds =>
      if is_char z 48 then
        let base :=
          if is_char x 120 || is_char x 88 then 16
          else if is_char x 111 || is_char x 79 then 8
          else if is_char x 98 || is_char x 66 then 2 else 0 in
        if base =? 0 then None
        else match ds with
             | [] => None
             | _ => if forallb (is_digit_in base) ds
                    then Some (digits_value base ds) else None
             end
      else None
  | _ => None
  end.

Definition infinity_chars : list ascii := list_ascii_of_string "Infinity".

Definition list_ascii_eqb (a b : list ascii) : bool :=
  String.eqb (string_of_list_ascii a) (string_of_list_ascii b).

(** [Number(s)] for a string [s] (StringToNumber). *)
Definition string_to_number (s : string) : jsnum :=
  let t := list_ascii_of_string (JsString.trim s) in
  match t with
  | [] => JFin 0 0
  | _ =>
      match parse_non_decimal t with
      | Some z => round_fin false z 0
      | None =>
          let '(neg, u) :=
            match t with
            | c :: r => if is_char c 43 then (false, r)
                        else if is_char c 45 then (true, r) else (false, t)
            | [] => (false, t)
            end in
          if list_ascii_eqb u infinity_chars then JInf neg
          else match parse_unsigned_decimal u with
               | Some (m, e) => round_fin neg m e
               | None => JNaN
               end
      end
  end.

(** [Number(undefined)] *)
Definition undefined_to_number : jsnum := JNaN.

(** Decimal digits of a positive number, most significant first. *)
Fixpoint uint_digits (u : Decimal.uint) : list ascii :=
  match u with
  | Decimal.Nil => []
  | Decimal.D0 u => "0"%char :: uint_digits u
  | Decimal.D1 u => "1"%char :: uint_digits u
  | Decimal.D2 u => "2"%char :: uint_digits u
  | Decimal.D3 u => "3"%char :: uint_digits u
  | Decimal.D4 u => "4"%char :: uint_digits u
  | Decimal.D5 u => "5"%char :: uint_digits u
  | Decimal.D6 u => "6"%char :: uint_digits u
  | Decimal.D7 u => "7"%char :: uint_digits u
  | Decimal.D8 u => "8"%char :: uint_digits u
  | Decimal.D9 u => "9"%char :: uint_digits u
  end.

Definition digits_of_pos (p : positive) : list ascii := uint_digits (Pos.to_uint p).

Definition digits_of_N (n : N) : list ascii :=
  match n with
  | N0 => ["0"%char]
  | Npos p => digits_of_pos p
  end.

Fixpoint drop_zeros (s : list ascii) : list ascii :=
  match s with
  | c :: s' => if is_char c 48 then drop_zeros s' else s
  | [] => []
  end.

(** Number::toString for the positive value [p * 10^e]: the digits [s]
    without trailing zeros, [k] of them, and [n] with
    [x = s * 10^(n - k)]. *)
Definition pos_to_string (p : positive) (e : Z) : list ascii :=
  let ds := digits_of_pos p in
  let s := rev (drop_zeros (rev ds)) in
  let k := Z.of_nat (List.length s) in
  let n := e + Z.of_nat (List.length ds) in
  let exp_part :=
    "e"%char :: (if 0 <=? n - 1 then "+"%char else "-"%char)
         :: digits_of_N (Z.abs_N (n - 1)) in
  if (k <=? n) && (n <=? 21) then s ++ repeat "0"%char (Z.to_nat (n - k))
  else if (0 <? n) && (n <=? 21) then
    firstn (Z.to_nat n) s ++ "."%char :: skipn (Z.to_nat n) s
  else if (-6 <? n) && (n <=? 0) then
    "0"%char :: "."%char :: repeat "0"%char (Z.to_nat (- n)) ++ s
  else
    match s with
    | [d] => d :: exp_part
    | d :: ds' => d :: "."%char :: ds' ++ exp_part
    | [] => exp_part
    end.

(** [`${x}`] for a number [x] (Number::toString). *)
Definition number_to_string (x : jsnum) : string :=
  match x with
  | JNaN => "NaN"
  | JInf false => "Infinity"
  | JInf true => "-Infinity"
  | JFin m e =>
      match m with
      | Z0 => "0"
      | Zpos p => string_of_list_ascii (pos_to_string p e)
      | Zneg p => String "-" (string_of_list_ascii (pos_to_string p e))
      end
  end.

(** The sign of [a - b] as [Array.prototype.sort] reads a comparator
    result: a NaN difference counts as [+0]. *)
Definition sub_sign (a b : jsnum) : comparison :=
  match a, b with
  | JNaN, _ | _, JNaN => Eq
  | JInf na, JInf nb =>
      if Bool.eqb na nb then Eq else if na then Lt else Gt
  | JInf na, JFin _ _ => if na then Lt else Gt
  | JFin _ _, JInf nb => if nb then Gt else Lt
  | JFin m e, JFin m' e' => Qcompare (fin_value m e) (fin_value m' e')
  end.

Definition is_nan (x : jsnum) : bool :=
  match x with JNaN => true | _ => false end.

Definition is_finite (x : jsnum) : bool :=
  match x with JFin _ _ => true | _ => false end.

End JsNumber.

(* ------------------------------------------------------------------ *)
(** ** The in-app pipeline ([src/unnamed/part_000]) *)

Module Pipeline.

Import JsString JsNumber.
Local Open Scope string_scope.

(** [type Datum = z.infer<typeof datumSchema>] *)
Record Datum : Type := mkDatum {
  Region : string;
  Scenario : string;
  Variable_ : string;   (** [Variable] is a Rocq keyword *)
  Year : jsnum;
  Value : jsnum
}.

(** [type Dimension = Exclude<keyof Datum, "Value">] *)
Inductive Dimension : Type := DRegion | DScenario | DVariable | DYear.

Definition Dimension_eqb (a b : Dimension) : bool :=
  match a, b with
  | DRegion, DRegion | DScenario, DScenario
  | DVariable, DVariable | DYear, DYear => true
  | _, _ => false
  end.

Record Filter : Type := mkFilter { dimension : Dimension; value : string }.

(** [`${datum[dimension]}`] *)
Definition dimension_string (D : Dimension) (d : Datum) : string :=
  match D with
  | DRegion => Region d
  | DScenario => Scenario d
  | DVariable => Variable_ d
  | DYear => number_to_string (Year d)
  end.

(** *** Stable sorting ([Array.prototype.sort] with a comparator)

    With a consistent comparator, [Array.prototype.sort] is required to be
    stable, which fixes its result; insertion sort computes that result. *)

Section Sort.
Context {A : Type} (cmp : A -> A -> comparison).

Fixpoint insert_by (x : A) (l : list A) : list A :=
  match l with
  | [] => [x]
  | y :: l' => match cmp x y with
               | Gt => y :: insert_by x l'
               | _ => x :: y :: l'
               end
  end.

Fixpoint sort_by (l : list A) : list A :=
  match l with
  | [] => []
  | x :: l' => insert_by x (sort_by l')
  end.

End Sort.

(** *** Record Parser: the body of [useData] after [fetch] *)

Inductive parse_error : Type :=
| MissingHeaders                (** [throw new Error("Missing headers")] *)
| MissingHeaderAt (index : nat) (** [Missing header at index ...] *)
| SchemaError.                  (** the ZodError of [z.array(datumSchema).parse] *)

Inductive result (A : Type) : Type :=
| Ok (a : A)
| Err (e : parse_error).
Arguments Ok {A} a.
Arguments Err {A} e.

(** The cell mapping of a data line. *)
Definition unquote_cell (cell : string) : string :=
  if starts_with_quote cell && ends_with_quote cell
  then substring_js cell 1 (Z.of_nat (String.length cell) - 1)
  else cell.

(** [line.split(/,/g).map((cell, index) => ...)]: an entry
    [[header, cell]] per cell, throwing at the first index with no header. *)
Fixpoint row_entries_aux (headers : list string) (index : nat)
    (cells : list string) : result (list (string * string)) :=
  match cells with
  | [] => Ok []
  | cell :: cells' =>
      match nth_error headers index with
      | None => Err (MissingHeaderAt index)
      | Some header =>
          match row_entries_aux headers (S index) cells' with
          | Ok es => Ok ((header, unquote_cell cell) :: es)
          | Err e => Err e
          end
      end
  end.

Definition row_entries (headers : list string) (line : string)
  : result (list (string * string)) :=
  row_entries_aux headers 0 (split_char "," line).

(** [lines.slice(1).map(...)]: the first throwing line aborts. *)
Fixpoint map_result {A B : Type} (f : A -> result B) (l : list A)
  : result (list B) :=
  match l with
  | [] => Ok []
  | x :: l' =>
      match f x with
      | Err e => Err e
      | Ok y => match map_result f l' with
                | Ok ys => Ok (y :: ys)
                | Err e => Err e
                end
      end
  end.

(** A property read on [Object.fromEntries(entries)]: the last entry of
    a key wins; [None] is [undefined]. *)
Definition obj_get (entries : list (string * string)) (k : string)
  : option string :=
  fold_left (fun acc '(k', v) => if String.eqb k' k then Some v else acc)
    entries None.

(** [z.coerce.number()]: [Number(input)], refused when NaN. As in zod 3,
    [z.number()] has no finiteness check, so infinities pass. *)
Definition zod_coerce_number (v : option string) : option jsnum :=
  let x := match v with
           | Some s => string_to_number s
           | None => undefined_to_number
           end in
  if is_nan x then None else Some x.

(** [datumSchema.parse] on one row object. *)
Definition datumSchema_parse (o : list (string * string)) : option Datum :=
  match obj_get o "Region", obj_get o "Scenario", obj_get o "Variable",
        zod_coerce_number (obj_get o "Year"),
        zod_coerce_number (obj_get o "Value") with
  | Some r, Some s, Some v, Some y, Some x => Some (mkDatum r s v y x)
  | _, _, _, _, _ => None
  end.

(** [z.array(datumSchema).parse]: fails when any element fails. *)
Fixpoint array_parse (rows : list (list (string * string)))
  : option (list Datum) :=
  match rows with
  | [] => Some []
  | o :: rows' =>
      match datumSchema_parse o, array_parse rows' with
      | Some d, Some ds => Some (d :: ds)
      | _, _ => None
      end
  end.

(** [(a, b) => a.Year - b.Year] *)
Definition year_cmp (a b : Datum) : comparison := sub_sign (Year a) (Year b).

(** The text-to-records part of [useData]: [Ok] is the array passed to
    [setData], [Err] the error thrown into [.catch(alert)]. *)
Definition useData (csv : string) : result (list Datum) :=
  let lines := split_lf (trim csv) in
  match hd_error lines with
  | None => Err MissingHeaders
  | Some h =>
      let headers := split_char "," (remove_quotes h) in
      match map_result (row_entries headers) (tl lines) with
      | Err e => Err e
      | Ok rows =>
          match array_parse rows with
          | None => Err SchemaError
          | Some data => Ok (sort_by year_cmp data)
          end
      end
  end.

(** *** Dimension Indexer: [useDimensions] *)

(** [Array.from(new Set(xs))]: first occurrences, in order. *)
Definition set_from_list (xs : list string) : list string :=
  fold_left (fun acc x => if existsb (String.eqb x) acc then acc else app acc [x])
    xs [].

(** [xs.sort()] on strings: code-unit order ([String.compare] compares
    the codes of the characters). *)
Definition sort_strings (xs : list string) : list string :=
  sort_by String.compare xs.

Definition options_of (D : Dimension) (data : list Datum) : list string :=
  "All" :: sort_strings (set_from_list (map (dimension_string D) data)).

Record DimensionOptions : Type := mkDimensionOptions {
  opt_Scenario : list string;
  opt_Region : list string;
  opt_Variable : list string;
  opt_Year : list string
}.

Definition useDimensions (data : option (list Datum))
  : option DimensionOptions :=
  match data with
  | None => None
  | Some data =>
      Some (mkDimensionOptions (options_of DScenario data)
              (options_of DRegion data) (options_of DVariable data)
              (options_of DYear data))
  end.

Definition dimension_options (o : DimensionOptions) (D : Dimension)
  : list string :=
  match D with
  | DRegion => opt_Region o
  | DScenario => opt_Scenario o
  | DVariable => opt_Variable o
  | DYear => opt_Year o
  end.

(** *** Filter Engine: [useFilteredData] *)

(** The callback of [filters.every] for one filter. *)
Definition filter_matches (datum : Datum) (f : Filter) : bool :=
  if String.eqb (value f) "All" then
    if Dimension_eqb (dimension f) DRegion && String.eqb (value f) "All"
    then negb (String.eqb (Region datum) "Canada")
    else true
  else String.eqb (dimension_string (dimension f) datum) (value f).

Definition useFilteredData (data : option (list Datum)) (filters : list Filter)
  : option (list Datum) :=
  match data with
  | None => None
  | Some data =>
      match filters with
      | [] => Some data
      | _ => Some (filter (fun datum => forallb (filter_matches datum) filters) data)
      end
  end.

(** *** Series Grouper: [useChartData] *)

(** [allDimensions]: the non-Year dimensions whose filter value is
    ["All"]. *)
Definition allDimensions (filters : list Filter) : list Dimension :=
  map dimension
    (filter (fun f => negb (Dimension_eqb (dimension f) DYear)
                      && String.eqb (value f) "All") filters).

Definition includes (ds : list Dimension) (D : Dimension) : bool :=
  existsb (Dimension_eqb D) ds.

Definition groupByFn (allRegions allVariables allScenarios : bool)
    (d : Datum) : string :=
  ((if allRegions then Region d else "")
   ++ (if allRegions && allVariables then " - " else "")
   ++ (if allVariables then Variable_ d else "")
   ++ (if (allRegions || allVariables) && allScenarios
       then " (" ++ Scenario d ++ ")"
       else if allScenarios then Scenario d else ""))%string.

(** [Object.groupBy]: groups in order of creation of their key, each
    group in input order. *)
Fixpoint group_insert {A : Type} (k : string) (x : A)
    (groups : list (string * list A)) : list (string * list A) :=
  match groups with
  | [] => [(k, [x])]
  | (k', xs) :: g =>
      if String.eqb k k' then (k', app xs [x]) :: g
      else (k', xs) :: group_insert k x g
  end.

Definition object_groupBy {A : Type} (f : A -> string) (l : list A)
  : list (string * list A) :=
  fold_left (fun g x => group_insert (f x) x g) l [].

(** The value of a key that is an array index (a canonical decimal
    string of an integer below [2^32 - 1]). *)
Definition array_index (k : string) : option Z :=
  match list_ascii_of_string k with
  | [] => None
  | c :: rest =>
      if forallb is_digit (c :: rest)
         && (negb (is_char c 48) || match rest with [] => true | _ => false end)
      then let v := digits_value 10 (c :: rest) in
           if (v <? 2 ^ 32 - 1)%Z then Some v else None
      else None
  end.

Definition is_array_index (k : string) : bool :=
  match array_index k with Some _ => true | None => false end.

(** Array-index keys compare by numeric value. *)
Definition key_index_cmp (a b : string) : comparison :=
  match array_index a, array_index b with
  | Some i, Some j => Z.compare i j
  | _, _ => Eq
  end.

(** [Object.entries] (OrdinaryOwnPropertyKeys): array-index keys in
    ascending numeric order, then the other string keys in creation
    order. *)
Definition object_entries {A : Type} (o : list (string * A))
  : list (string * A) :=
  app (sort_by (fun a b => key_index_cmp (fst a) (fst b))
         (filter (fun e => is_array_index (fst e)) o))
    (filter (fun e => negb (is_array_index (fst e))) o).

Record Series : Type := mkSeries { label : string; series_data : list Datum }.

Definition useChartData (data : option (list Datum)) (filters : list Filter)
  : option (list Series) :=
  match data with
  | None => None
  | Some data =>
      let ad := allDimensions filters in
      let allRegions := includes ad DRegion in
      let allVariables := includes ad DVariable in
      let allScenarios := includes ad DScenario in
      Some (map (fun '(l, g) => mkSeries l g)
              (object_entries
                 (object_groupBy (groupByFn allRegions allVariables allScenarios)
                    data)))
  end.

End Pipeline.

(* ------------------------------------------------------------------ *)
(** ** The build-time parser ([src/parse.mjs]) *)

Module ParseMjs.

Import JsString JsNumber Pipeline.
Local Open Scope string_scope.

(** [csv.toString().trim().split(/\r\n/g)] *)
Definition lines (csv : string) : list string := split_crlf (trim csv).

(** [lines.at(0)] without its double quotes, split at commas; [None] is
    the TypeError
    of reading [replace] on [undefined]. *)
Definition headers (csv : string) : option (list string) :=
  match hd_error (lines csv) with
  | Some h => Some (split_char "," (remove_quotes h))
  | None => None
  end.

(** The entries of a data line: an index with no header gives the
    property key ["undefined"]. *)
Fixpoint row_entries_aux (hs : list string) (index : nat) (cells : list string)
  : list (string * string) :=
  match cells with
  | [] => []
  | cell :: cells' =>
      (match nth_error hs index with Some h => h | None => "undefined" end,
       unquote_cell cell) :: row_entries_aux hs (S index) cells'
  end.

(** [const data = z.array(schema).parse(...)]; [None] when it throws. *)
Definition data (csv : string) : option (list Datum) :=
  match headers csv with
  | None => None
  | Some hs =>
      array_parse
        (map (fun line => row_entries_aux hs 0 (split_char "," line))
           (tl (lines csv)))
  end.

End ParseMjs.

(* ------------------------------------------------------------------ *)
(** ** The per-selection cache of [useDimensionData] ([src/App.tsx]) *)

Module DimensionDataCache.

Import JsNumber.
Local Open Scope string_scope.

(** [z.tuple([z.string(), z.number(), z.number()])] *)
Definition DimensionData : Type := (string * jsnum * jsnum)%type.

(** [dimensionDataCache.current]: a plain object from string keys to
    arrays, the most recent assignment of a key first. No key of
    [Object.prototype] contains a dot, so the prototype never answers a
    lookup. *)
Definition cache : Type := list (string * list DimensionData).

Fixpoint cache_get (c : cache) (k : string) : option (list DimensionData) :=
  match c with
  | [] => None
  | (k', d) :: c' => if String.eqb k' k then Some d else cache_get c' k
  end.

Definition cache_set (c : cache) (k : string) (d : list DimensionData) : cache :=
  (k, d) :: c.

(** [`${Scenarios}.${Regions}`] *)
Definition cache_key (Scenarios Regions : string) : string :=
  Scenarios ++ "." ++ Regions.

(** What one run of the effect of [useDimensionData] does. *)
Inductive effect : Type :=
| Skip                                  (** a selection is unset or empty *)
| UseCached (d : list DimensionData)    (** [setDimensionData(cachedData)] *)
| Fetch (url : string).                 (** [fetch(`/${Scenarios}/${Regions}.json`)] *)

Definition is_empty (s : string) : bool := String.eqb s "".

(** The effect body. An array is always truthy, so any cached entry is
    used. *)
Definition useDimensionData_effect (c : cache)
    (Scenarios Regions : option string) : effect :=
  match Scenarios, Regions with
  | Some s, Some r =>
      if is_empty s || is_empty r then Skip
      else match cache_get c (cache_key s r) with
           | Some d => UseCached d
           | None => Fetch ("/" ++ s ++ "/" ++ r ++ ".json")
           end
  | _, _ => Skip
  end.

(** The success continuation of the fetch for [(s, r)]:
    [dimensionDataCache.current[key] = dimensionData]. *)
Definition on_fetched (c : cache) (s r : string) (d : list DimensionData)
  : cache :=
  cache_set c (cache_key s r) d.

End DimensionDataCache.

(* ------------------------------------------------------------------ *)
(** ** The filter state of [Section] and the chart guard of
    [Visualization] ([src/unnamed/part_000]) *)

Module SectionState.

Import JsNumber Pipeline.
Local Open Scope string_scope.

(** The initial value of [useState<Filter[]>] in [Section]. *)
Definition initial_filters : list Filter :=
  [mkFilter DScenario "Current Measures"; mkFilter DRegion "All";
   mkFilter DVariable "All"; mkFilter DYear "All"].

(** The updater a [Select] passes to [setFilters]:
    [filters.filter(f => f.dimension !== dimension).concat({dimension, value})]. *)
Definition set_filter (D : Dimension) (v : string) (filters : list Filter)
  : list Filter :=
  app (filter (fun f => negb (Dimension_eqb (dimension f) D)) filters)
    [mkFilter D v].

(** The filter state after a sequence of selections, each a dimension
    and the value chosen in its [Select]. *)
Definition section_filters (selections : list (Dimension * string))
  : list Filter :=
  fold_left (fun fs '(D, v) => set_filter D v fs) selections initial_filters.

(** [filters.find((filter) => filter.dimension === dimension)] *)
Definition find_filter (filters : list Filter) (D : Dimension) : option Filter :=
  find (fun f => Dimension_eqb (dimension f) D) filters.

(** The [value] shown by the [Select] of [D]:
    [filters.find(...)?.value || options[0]]; the empty string is falsy,
    and [None] is [undefined]. *)
Definition select_value (filters : list Filter) (D : Dimension)
    (options : list string) : option string :=
  match find_filter filters D with
  | Some f => if String.eqb (value f) "" then hd_error options else Some (value f)
  | None => hd_error options
  end.

(** [filters.some(({ dimension, value }) => dimension === "Year" && value !== "All")] *)
Definition hasYearFilter (filters : list Filter) : bool :=
  existsb (fun f => Dimension_eqb (dimension f) DYear
                    && negb (String.eqb (value f) "All")) filters.

(** [Visualization] draws a chart unless [!chartData?.length]. *)
Definition renders_chart (data : option (list Datum)) (filters : list Filter)
  : bool :=
  match useChartData data filters with
  | Some (_ :: _) => true
  | _ => false
  end.

End SectionState.

(* ------------------------------------------------------------------ *)
(** ** The files written by [src/parse.mjs] *)

Module ParseMjsOutput.

Import JsNumber Pipeline.
Local Open Scope string_scope.

(** [new Set(data.map(({ Region }) => Region))], and the same for
    [Scenario]. *)
Definition Regions (ds : list Datum) : list string := set_from_list (map Region ds).
Definition Scenarios (ds : list Datum) : list string := set_from_list (map Scenario ds).

(** [({ Region, Scenario }) => `${Region}.${Scenario}`] *)
Definition group_key (d : Datum) : string := Region d ++ "." ++ Scenario d.

Definition dataByRegionAndScenario (ds : list Datum) : list (string * list Datum) :=
  object_groupBy group_key ds.

(** [({ Region, Scenario, ...rest }) => Object.values(rest)]: the
    remaining properties of the parsed object, in schema order. *)
Definition row_values (d : Datum) : string * jsnum * jsnum :=
  (Variable_ d, Year d, Value d).

(** [`public/${data.at(0).Scenario}/${data.at(0).Region}.json`] *)
Definition file_path (d : Datum) : string :=
  "public/" ++ Scenario d ++ "/" ++ Region d ++ ".json".

(** The [writeFile] calls of the loop over
    [Object.values(dataByRegionAndScenario)], in order: the path and the
    array passed to [JSON.stringify]. A group of [Object.groupBy] is
    created with its first element, so [data.at(0)] is defined. *)
Definition written_files (ds : list Datum)
  : list (string * list (string * jsnum * jsnum)) :=
  flat_map (fun '(_, g) => match g with
                           | [] => []
                           | d0 :: _ => [(file_path d0, map row_values g)]
                           end)
    (object_entries (dataByRegionAndScenario ds)).

(** The object written to [public/dimensions.json]:
    [Array.from(Scenarios).sort()] and [Array.from(Regions).sort()]. *)
Definition dimensions_json (ds : list Datum) : list string * list string :=
  (sort_strings (Scenarios ds), sort_strings (Regions ds)).

(** Whether a string contains a dot. *)
Fixpoint has_dot (s : string) : bool :=
  match s with
  | EmptyString => false
  | String c s' => Ascii.eqb c "." || has_dot s'
  end.

End ParseMjsOutput.

(* ------------------------------------------------------------------ *)
(** ** The chart data of [src/App.tsx] *)

Module AppChart.

Import JsNumber Pipeline DimensionDataCache.
Local Open Scope string_scope.

(** [{ year, value }] *)
Record ChartPoint : Type := mkChartPoint { point_year : jsnum; point_value : jsnum }.

Record ChartSeries : Type :=
  mkChartSeries { chart_label : string; chart_data : list ChartPoint }.

(** [([, year, value]) => ({ year, value })] *)
Definition to_point (t : DimensionData) : ChartPoint :=
  let '(_, year, value) := t in mkChartPoint year value.

(** [([type]) => type] *)
Definition tuple_type (t : DimensionData) : string := let '(type, _, _) := t in type.

(** [useChartData]; an array is truthy, so only [undefined] gives
    [undefined]. *)
Definition useChartData (dimensionData : option (list DimensionData))
  : option (list ChartSeries) :=
  match dimensionData with
  | None => None
  | Some dd =>
      Some (map (fun '(label, data) => mkChartSeries label (map to_point data))
              (object_entries (object_groupBy tuple_type dd)))
  end.

(** [response.json()] then [z.array(dimensionDataSchema).parse] on a file
    that [parse.mjs] wrote with [JSON.stringify]: a finite number is written
    as a numeral that reads back as the same number; an infinity is
    written as [null], which [z.number()] refuses, and then the whole
    array is refused. *)
Definition served (rows : list DimensionData) : option (list DimensionData) :=
  if forallb (fun t => let '(_, y, x) := t in is_finite y && is_finite x) rows
  then Some rows else None.

End AppChart.

(* ------------------------------------------------------------------ *)
(** ** The label rule in the words of the spec, and sample inputs *)

Module Samples.

Import JsNumber Pipeline.
Local Open Scope string_scope.

(** The label rule of the Series Grouper as the spec words it: R, V, S
    are the Region, Variable and Scenario values of the unconstrained
    dimensions. *)
Definition spec_label (aR aV aS : bool) (d : Datum) : string :=
  let rv := match aR, aV with
            | true, true => Region d ++ " - " ++ Variable_ d
            | true, false => Region d
            | false, true => Variable_ d
            | false, false => ""
            end in
  if aS then (if aR || aV then rv ++ " (" ++ Scenario d ++ ")" else Scenario d)
  else rv.

(** A one-character string holding LF. *)
Definition lf : string := String "010"%char "".

Definition sample_header : string := "Region,Scenario,Variable,Year,Value".

(** The concrete scenario of the spec, rows given out of year order. *)
Definition sample_csv : string :=
  sample_header ++ lf ++ "ON,Base,Wind,2021,7" ++ lf ++ "ON,Base,Wind,2020,5" ++ lf.

Definition sample_sorted : list Datum :=
  [mkDatum "ON" "Base" "Wind" (JFin 2020 0) (JFin 5 0);
   mkDatum "ON" "Base" "Wind" (JFin 2021 0) (JFin 7 0)].

(** A row whose Year cell is [Infinity]. *)
Definition infinity_csv : string :=
  sample_header ++ lf ++ "ON,Base,Wind,Infinity,7".

(** A row whose Year cell is not a number. *)
Definition nan_csv : string :=
  sample_header ++ lf ++ "ON,Base,Wind,2020,7" ++ lf ++ "ON,Base,Wind,abc,7".

(** Two records whose Regions are ["b"] and ["1"], in that order. *)
Definition region_b : Datum := mkDatum "b" "Base" "Wind" (JFin 2020 0) (JFin 5 0).
Definition region_1 : Datum := mkDatum "1" "Base" "Wind" (JFin 2020 0) (JFin 6 0).

(** A record whose Region is the empty string. *)
Definition region_empty : Datum := mkDatum "" "Base" "Wind" (JFin 2020 0) (JFin 5 0).

(** Four records of two Regions and two Variables, not grouped. *)
Definition on_wind_2020 : Datum := mkDatum "ON" "Base" "Wind" (JFin 2020 0) (JFin 5 0).
Definition qc_wind_2020 : Datum := mkDatum "QC" "Base" "Wind" (JFin 2020 0) (JFin 3 0).
Definition on_solar_2020 : Datum := mkDatum "ON" "Base" "Solar" (JFin 2020 0) (JFin 1 0).
Definition on_wind_2021 : Datum := mkDatum "ON" "Base" "Wind" (JFin 2021 0) (JFin 7 0).

Definition mixed_data : list Datum :=
  [on_wind_2020; qc_wind_2020; on_solar_2020; on_wind_2021].

(** The series of [mixed_data] when only Region is unconstrained. *)
Definition mixed_series : list Series :=
  [mkSeries "ON" [on_wind_2020; on_solar_2020; on_wind_2021];
   mkSeries "QC" [qc_wind_2020]].

(** The rows written for Scenario Base and Region ON of [mixed_data]. *)
Definition on_rows : list (string * jsnum * jsnum) :=
  [("Wind", JFin 2020 0, JFin 5 0); ("Solar", JFin 2020 0, JFin 1 0);
   ("Wind", JFin 2021 0, JFin 7 0)].

(** The chart the app draws from [on_rows]. *)
Definition on_chart : list AppChart.ChartSeries :=
  [AppChart.mkChartSeries "Wind"
     [AppChart.mkChartPoint (JFin 2020 0) (JFin 5 0);
      AppChart.mkChartPoint (JFin 2021 0) (JFin 7 0)];
   AppChart.mkChartSeries "Solar" [AppChart.mkChartPoint (JFin 2020 0) (JFin 1 0)]].

End Samples.

(* ------------------------------------------------------------------ *)
(** ** Facts about the model *)

Module Facts.

Import JsString JsNumber Pipeline.

(** *** Insertion sort *)

Section SortFacts.
Context {A : Type} (cmp : A -> A -> comparison).

Lemma insert_by_perm x l : Permutation (insert_by cmp x l) (x :: l).
Proof.
  induction l as [|y l IH]; simpl; [auto|].
  destruct (cmp x y); auto.
  eapply perm_trans; [apply perm_skip, IH | apply perm_swap].
Qed.

Lemma sort_by_perm l : Permutation (sort_by cmp l) l.
Proof.
  induction l as [|x l IH]; simpl; [auto|].
  eapply perm_trans; [apply insert_by_perm | apply perm_skip, IH].
Qed.

Lemma insert_by_filter (k : A -> bool) x l :
  (forall y, In y l -> k x = true -> k y = true -> cmp x y <> Gt) ->
  filter k (insert_by cmp x l) = filter k (x :: l).
Proof.
  induction l as [|y l IH]; intros H; simpl; [reflexivity|].
  destruct (cmp x y) eqn:E; try reflexivity.
  simpl. rewrite IH by (intros z Hz; apply H; right; exact Hz).
  simpl. destruct (k x) eqn:Kx, (k y) eqn:Ky; try reflexivity.
  exfalso. apply (H y (or_introl eq_refl) eq_refl Ky). exact E.
Qed.

Lemma sort_by_filter (k : A -> bool) l :
  (forall x y, In x l -> In y l -> k x = true -> k y = true -> cmp x y <> Gt) ->
  filter k (sort_by cmp l) = filter k l.
Proof.
  induction l as [|x l IH]; intros H; simpl; [reflexivity|].
  rewrite insert_by_filter.
  - simpl. rewrite IH by (intros a b Ha Hb; apply H; right; assumption).
    reflexivity.
  - intros y Hy. apply H; [left; reflexivity|right].
    apply (Permutation_in _ (sort_by_perm l)), Hy.
Qed.

Hypothesis cmp_antisym : forall a b, cmp a b = CompOpp (cmp b a).

Lemma insert_by_sorted x l :
  Sorted (fun a b => cmp a b <> Gt) l ->
  Sorted (fun a b => cmp a b <> Gt) (insert_by cmp x l).
Proof.
  induction 1 as [|y l Hs IH Hhd]; simpl.
  - repeat constructor.
  - destruct (cmp x y) eqn:E.
    + constructor; [constructor; assumption | constructor; congruence].
    + constructor; [constructor; assumption | constructor; congruence].
    + constructor; [exact IH|].
      destruct l as [|z l]; simpl.
      * constructor. rewrite cmp_antisym, E. discriminate.
      * destruct (cmp x z); constructor;
          try (rewrite cmp_antisym, E; discriminate);
          inversion Hhd; assumption.
Qed.

Lemma sort_by_sorted l : Sorted (fun a b => cmp a b <> Gt) (sort_by cmp l).
Proof.
  induction l as [|x l IH]; simpl; [constructor|].
  apply insert_by_sorted, IH.
Qed.

End SortFacts.

(** *** [new Set] *)

Lemma set_step_In (acc xs : list string) x :
  In x (fold_left (fun acc x => if existsb (String.eqb x) acc then acc
                                else app acc [x]) xs acc)
  <-> In x acc \/ In x xs.
Proof.
  revert acc; induction xs as [|y xs IH]; intros acc; simpl.
  - tauto.
  - rewrite IH. destruct (existsb (String.eqb y) acc) eqn:E.
    + apply existsb_exists in E as [z [Hz Hzy]].
      apply String.eqb_eq in Hzy; subst z.
      split; [tauto|]. intros [H|[H|H]]; subst; tauto.
    + rewrite in_app_iff. simpl. tauto.
Qed.

Lemma set_step_NoDup (acc xs : list string) :
  NoDup acc ->
  NoDup (fold_left (fun acc x => if existsb (String.eqb x) acc then acc
                                 else app acc [x]) xs acc).
Proof.
  revert acc; induction xs as [|y xs IH]; intros acc Hacc; simpl; [exact Hacc|].
  apply IH. destruct (existsb (String.eqb y) acc) eqn:E; [exact Hacc|].
  apply NoDup_app; [exact Hacc | repeat constructor; simpl; tauto |].
  intros z Hz [Hzy|[]]; subst z.
  assert (existsb (String.eqb y) acc = true) as E'
    by (apply existsb_exists; exists y; split; [exact Hz | apply String.eqb_refl]).
  congruence.
Qed.

Lemma set_from_list_In xs x : In x (set_from_list xs) <-> In x xs.
Proof. unfold set_from_list. rewrite set_step_In. simpl. tauto. Qed.

Lemma set_from_list_NoDup xs : NoDup (set_from_list xs).
Proof. apply set_step_NoDup. constructor. Qed.

Lemma sorted_strict {A : Type} (R R' : A -> A -> Prop) (l : list A) :
  Sorted R l -> NoDup l -> (forall a b, R a b -> a <> b -> R' a b) ->
  Sorted R' l.
Proof.
  intros Hs Hnd HR. induction Hs as [|x l Hs IH Hhd]; constructor.
  - apply IH. inversion Hnd; assumption.
  - destruct Hhd as [|y l' Hxy]; constructor. apply HR; [exact Hxy|].
    intros ->. inversion Hnd as [|? ? Hn]. apply Hn. left; reflexivity.
Qed.

Lemma filter_andb {A : Type} (f g : A -> bool) (l : list A) :
  filter (fun x => f x && g x) l = filter f (filter g l).
Proof.
  induction l as [|x l IH]; simpl; [reflexivity|].
  destruct (f x) eqn:F, (g x) eqn:G; simpl; rewrite ?F, ?IH; reflexivity.
Qed.

Lemma append_empty_r (s : string) : (s ++ "")%string = s.
Proof. induction s as [|c s IH]; simpl; [reflexivity | rewrite IH; reflexivity]. Qed.

Lemma append_assoc (a b c : string) :
  ((a ++ b) ++ c)%string = (a ++ b ++ c)%string.
Proof. induction a as [|x a IH]; simpl; [reflexivity | rewrite IH; reflexivity]. Qed.

(** *** Line splitting never yields the empty array *)

Lemma split_crlf_opt_aux_nil cur s : split_crlf_opt_aux cur s <> [].
Proof.
  revert cur; induction s as [|c s IH]; intros cur; simpl; [discriminate|].
  destruct (Ascii.eqb c "010"%char); [discriminate | apply IH].
Qed.

Lemma row_entries_aux_err hs i cells e :
  Pipeline.row_entries_aux hs i cells = Err e -> exists j, e = MissingHeaderAt j.
Proof.
  revert i; induction cells as [|c cells IH]; intros i; simpl; [discriminate|].
  destruct (nth_error hs i).
  - destruct (Pipeline.row_entries_aux hs (S i) cells) eqn:E; [discriminate|].
    intros H; injection H as <-. exact (IH _ E).
  - intros H; injection H as <-. eexists; reflexivity.
Qed.

Lemma map_result_err {A B : Type} (f : A -> result B) l e :
  map_result f l = Err e -> exists x, In x l /\ f x = Err e.
Proof.
  induction l as [|x l IH]; simpl; [discriminate|].
  destruct (f x) eqn:F.
  - destruct (map_result f l) eqn:M; [discriminate|].
    intros H; injection H as <-. destruct (IH eq_refl) as [y [Hy Fy]].
    exists y; split; [right|]; assumption.
  - intros H; injection H as <-. exists x; split; [left; reflexivity | exact F].
Qed.

(** *** CR LF detection and splitting *)

Lemma has_crlf_tail c s : has_crlf (c :: s) = false -> has_crlf s = false.
Proof.
  destruct s as [|d s]; simpl; [reflexivity|].
  intros H. apply orb_false_iff in H. apply H.
Qed.

Lemma has_crlf_app_r p x : has_crlf (p ++ x) = false -> has_crlf x = false.
Proof.
  induction p as [|c p IH]; simpl; [tauto|].
  intros H. apply IH. exact (has_crlf_tail c _ H).
Qed.

Lemma has_crlf_app_l x q : has_crlf (x ++ q) = false -> has_crlf x = false.
Proof.
  induction x as [|c x IH]; simpl; [reflexivity|].
  destruct x as [|d x]; [reflexivity|].
  simpl. intros H. apply orb_false_iff in H as [H1 H2].
  rewrite H1. simpl. apply IH. exact H2.
Qed.

Lemma drop_space_suffix l : exists p, l = p ++ drop_space l.
Proof.
  induction l as [|c l [p Hp]]; simpl; [exists []; reflexivity|].
  destruct (is_js_space c).
  - exists (c :: p). simpl. rewrite <- Hp. reflexivity.
  - exists []. reflexivity.
Qed.

Lemma trim_infix s :
  exists p q, list_ascii_of_string s = p ++ list_ascii_of_string (trim s) ++ q.
Proof.
  unfold trim. rewrite list_ascii_of_string_of_list_ascii.
  set (l := list_ascii_of_string s).
  destruct (drop_space_suffix l) as [p Hp].
  destruct (drop_space_suffix (rev (drop_space l))) as [q Hq].
  exists p, (rev q).
  rewrite Hp at 1. f_equal.
  rewrite <- rev_app_distr, <- Hq, rev_involutive. reflexivity.
Qed.

Lemma split_crlf_aux_no_crlf cur s :
  has_crlf s = false -> split_crlf_aux cur s = [rev cur ++ s].
Proof.
  revert cur; induction s as [|c s IH]; intros cur H; simpl.
  - rewrite app_nil_r. reflexivity.
  - destruct s as [|d s'].
    + reflexivity.
    + simpl in H. apply orb_false_iff in H as [H1 H2].
      rewrite H1. rewrite IH by exact H2. simpl.
      rewrite <- app_assoc. reflexivity.
Qed.

Lemma split_crlf_opt_aux_length cur s :
  length (split_crlf_opt_aux cur s) = S (count_occ ascii_dec s "010"%char).
Proof.
  revert cur; induction s as [|c s IH]; intros cur; simpl; [reflexivity|].
  destruct (Ascii.eqb c "010"%char) eqn:E.
  - apply Ascii.eqb_eq in E. subst c. simpl. rewrite IH. reflexivity.
  - destruct (ascii_dec c "010"%char) as [e|n].
    + subst c. discriminate.
    + apply IH.
Qed.

(** *** Numbers and the year comparator *)

Lemma sub_sign_antisym a b : sub_sign a b = CompOpp (sub_sign b a).
Proof.
  destruct a as [|na|m e], b as [|nb|m' e']; simpl; try reflexivity.
  - destruct na, nb; reflexivity.
  - destruct na; reflexivity.
  - destruct nb; reflexivity.
  - rewrite <- Qcompare_antisym. reflexivity.
Qed.

Lemma sub_sign_eq_trans a b c :
  is_nan a = false -> is_nan b = false -> is_nan c = false ->
  sub_sign a c = Eq -> sub_sign b c = Eq -> sub_sign a b = Eq.
Proof.
  intros Ha Hb Hc H1 H2.
  destruct a as [|na|m e], b as [|nb|m' e'], c as [|nc|m'' e''];
    simpl in *; try discriminate; try reflexivity;
    repeat match goal with x : bool |- _ => destruct x end;
    simpl in *; try discriminate; try reflexivity.
  apply Qeq_alt in H1, H2. apply Qeq_alt.
  eapply Qeq_trans; [exact H1 | apply Qeq_sym; exact H2].
Qed.

Lemma year_cmp_antisym a b : year_cmp a b = CompOpp (year_cmp b a).
Proof. apply sub_sign_antisym. Qed.

(** *** Schema validation *)

Lemma zod_coerce_number_not_nan v x :
  zod_coerce_number v = Some x -> is_nan x = false.
Proof.
  unfold zod_coerce_number. destruct (is_nan _) eqn:E; [discriminate|].
  intros H; injection H as <-. exact E.
Qed.

Definition not_nan_datum (d : Datum) : Prop :=
  is_nan (Year d) = false /\ is_nan (Value d) = false.

Lemma array_parse_not_nan rows data :
  array_parse rows = Some data -> Forall not_nan_datum data.
Proof.
  revert data; induction rows as [|o rows IH]; intros data; simpl.
  - intros H; injection H as <-. constructor.
  - unfold datumSchema_parse.
    destruct (obj_get o "Region"), (obj_get o "Scenario"), (obj_get o "Variable"),
      (zod_coerce_number (obj_get o "Year")) as [y|] eqn:Y,
      (zod_coerce_number (obj_get o "Value")) as [x|] eqn:X,
      (array_parse rows) as [ds|] eqn:A; try discriminate.
    intros H; injection H as <-. constructor; [|exact (IH _ eq_refl)].
    split; eapply zod_coerce_number_not_nan; eassumption.
Qed.

Lemma array_parse_bad_row rows :
  Exists (fun o => zod_coerce_number (obj_get o "Year") = None \/
                   zod_coerce_number (obj_get o "Value") = None) rows ->
  array_parse rows = None.
Proof.
  induction 1 as [o rows Ho|o rows _ IH]; simpl.
  - unfold datumSchema_parse.
    destruct Ho as [Ho|Ho]; rewrite Ho;
      destruct (obj_get o "Region"), (obj_get o "Scenario"), (obj_get o "Variable");
      try reflexivity;
      destruct (zod_coerce_number (obj_get o "Year")); reflexivity.
  - rewrite IH. destruct (datumSchema_parse o); reflexivity.
Qed.

Lemma useData_ok csv data :
  useData csv = Ok data ->
  exists h rows raw,
    hd_error (split_lf (trim csv)) = Some h /\
    map_result (row_entries (split_char "," (remove_quotes h)))
      (tl (split_lf (trim csv))) = Ok rows /\
    array_parse rows = Some raw /\
    data = sort_by year_cmp raw.
Proof.
  unfold useData.
  destruct (hd_error (split_lf (trim csv))) as [h|] eqn:Hh; [|discriminate].
  destruct (map_result _ _) as [rows|e] eqn:Hr; [|discriminate].
  destruct (array_parse rows) as [raw|] eqn:A; [|discriminate].
  intros H; injection H as <-. exists h, rows, raw.
  split; [reflexivity|]. split; [exact Hr|]. split; [exact A | reflexivity].
Qed.

(** *** [Object.groupBy] and [Object.entries] *)

Section Grouping.
Context {A : Type} (f : A -> string).

Definition group_step (g : list (string * list A)) (x : A) :=
  group_insert (f x) x g.

Definition group_ok (e : string * list A) : Prop :=
  snd e <> [] /\ Forall (fun x => f x = fst e) (snd e).

Lemma group_insert_perm (k : string) (x : A) (g : list (string * list A)) :
  Permutation (concat (map snd (group_insert k x g))) (x :: concat (map snd g)).
Proof.
  induction g as [|[k' xs] g IH]; simpl.
  - rewrite ?app_nil_r. reflexivity.
  - destruct (String.eqb k k'); simpl.
    + rewrite <- app_assoc. simpl. apply Permutation_sym, Permutation_middle.
    + eapply perm_trans; [apply Permutation_app_head, IH|].
      apply Permutation_sym, Permutation_middle.
Qed.

Lemma group_fold_perm (l : list A) (g : list (string * list A)) :
  Permutation (concat (map snd (fold_left group_step l g)))
    (l ++ concat (map snd g)).
Proof.
  revert g; induction l as [|x l IH]; intros g; simpl; [reflexivity|].
  eapply perm_trans; [apply IH|].
  eapply perm_trans; [apply Permutation_app_head, group_insert_perm|].
  apply Permutation_sym, Permutation_middle.
Qed.

Lemma group_insert_ok (x : A) (g : list (string * list A)) :
  Forall group_ok g -> Forall group_ok (group_insert (f x) x g).
Proof.
  induction g as [|[k' xs] g IH]; simpl; intros H.
  - constructor; [|constructor].
    split; simpl; [discriminate | constructor; [reflexivity | constructor]].
  - inversion H as [|? ? [Hne Hxs] Hg]; subst.
    destruct (String.eqb (f x) k') eqn:E.
    + apply String.eqb_eq in E. constructor; [|exact Hg]. split; simpl.
      * destruct xs; discriminate.
      * apply Forall_app; split; [exact Hxs | constructor; [exact E | constructor]].
    + constructor; [split; assumption | apply IH, Hg].
Qed.

Lemma group_fold_ok (l : list A) (g : list (string * list A)) :
  Forall group_ok g -> Forall group_ok (fold_left group_step l g).
Proof.
  revert g; induction l as [|x l IH]; intros g H; simpl; [exact H|].
  apply IH, group_insert_ok, H.
Qed.

Lemma group_insert_keys (k : string) (x : A) (g : list (string * list A)) :
  map fst (group_insert k x g) =
  if existsb (String.eqb k) (map fst g) then map fst g else app (map fst g) [k].
Proof.
  induction g as [|[k' xs] g IH]; simpl; [reflexivity|].
  destruct (String.eqb k k'); simpl; [reflexivity|].
  rewrite IH. destruct (existsb (String.eqb k) (map fst g)); reflexivity.
Qed.

Lemma group_fold_keys (l : list A) (g : list (string * list A)) :
  map fst (fold_left group_step l g) =
  fold_left (fun acc x => if existsb (String.eqb x) acc then acc else app acc [x])
    (map f l) (map fst g).
Proof.
  revert g; induction l as [|x l IH]; intros g; simpl; [reflexivity|].
  rewrite IH. unfold group_step. rewrite group_insert_keys. reflexivity.
Qed.

Lemma object_groupBy_keys (l : list A) : map fst (object_groupBy f l) = set_from_list (map f l).
Proof. apply group_fold_keys. Qed.

Lemma object_groupBy_perm (l : list A) : Permutation (concat (map snd (object_groupBy f l))) l.
Proof.
  unfold object_groupBy. fold group_step.
  eapply perm_trans; [apply group_fold_perm | simpl; rewrite app_nil_r; reflexivity].
Qed.

Lemma object_groupBy_ok (l : list A) : Forall group_ok (object_groupBy f l).
Proof. apply group_fold_ok. constructor. Qed.

End Grouping.

Lemma filter_split_perm {B : Type} (p : B -> bool) (l : list B) :
  Permutation (filter p l ++ filter (fun x => negb (p x)) l) l.
Proof.
  induction l as [|x l IH]; simpl; [reflexivity|].
  destruct (p x); simpl.
  - apply perm_skip, IH.
  - eapply perm_trans; [apply Permutation_sym, Permutation_middle|].
    apply perm_skip, IH.
Qed.

Lemma map_filter_fst {B C : Type} (p : B -> bool) (l : list (B * C)) :
  map fst (filter (fun e => p (fst e)) l) = filter p (map fst l).
Proof.
  induction l as [|[b c] l IH]; simpl; [reflexivity|].
  destruct (p b); simpl; rewrite IH; reflexivity.
Qed.

Lemma map_insert_by_fst {B C : Type} (cmp : B -> B -> comparison) x
    (l : list (B * C)) :
  map fst (insert_by (fun a b => cmp (fst a) (fst b)) x l) =
  insert_by cmp (fst x) (map fst l).
Proof.
  induction l as [|y l IH]; simpl; [reflexivity|].
  destruct (cmp (fst x) (fst y)); simpl; rewrite ?IH; reflexivity.
Qed.

Lemma map_sort_by_fst {B C : Type} (cmp : B -> B -> comparison)
    (l : list (B * C)) :
  map fst (sort_by (fun a b => cmp (fst a) (fst b)) l) = sort_by cmp (map fst l).
Proof.
  induction l as [|x l IH]; simpl; [reflexivity|].
  rewrite map_insert_by_fst, IH. reflexivity.
Qed.

Lemma object_entries_perm {B : Type} (o : list (string * B)) :
  Permutation (object_entries o) o.
Proof.
  unfold object_entries.
  eapply perm_trans; [apply Permutation_app_tail, sort_by_perm|].
  apply (filter_split_perm (fun e => is_array_index (fst e))).
Qed.

Lemma object_entries_keys {B : Type} (o : list (string * B)) :
  map fst (object_entries o) =
  sort_by key_index_cmp (filter is_array_index (map fst o))
  ++ filter (fun k => negb (is_array_index k)) (map fst o).
Proof.
  unfold object_entries. rewrite map_app, map_sort_by_fst.
  rewrite (map_filter_fst is_array_index).
  rewrite (map_filter_fst (fun k => negb (is_array_index k))). reflexivity.
Qed.

Lemma key_index_cmp_antisym a b : key_index_cmp a b = CompOpp (key_index_cmp b a).
Proof.
  unfold key_index_cmp.
  destruct (array_index a), (array_index b); try reflexivity.
  apply Z.compare_antisym.
Qed.

Lemma perm_concat_map {B C : Type} (h : B -> list C) (l l' : list B) :
  Permutation l l' -> Permutation (concat (map h l)) (concat (map h l')).
Proof.
  induction 1 as [|x l l' _ IH|x y l|l l' l'' _ IH1 _ IH2]; simpl.
  - reflexivity.
  - apply Permutation_app_head, IH.
  - rewrite !app_assoc. apply Permutation_app_tail, Permutation_app_comm.
  - eapply perm_trans; eassumption.
Qed.

Lemma series_of_entries_data (l : list (string * list Datum)) :
  map series_data (map (fun '(k, g) => mkSeries k g) l) = map snd l.
Proof. induction l as [|[k g] l IH]; simpl; [reflexivity | rewrite IH; reflexivity]. Qed.

Lemma series_of_entries_label (l : list (string * list Datum)) :
  map label (map (fun '(k, g) => mkSeries k g) l) = map fst l.
Proof. induction l as [|[k g] l IH]; simpl; [reflexivity | rewrite IH; reflexivity]. Qed.

Lemma append_eq_empty (a b : string) :
  (a ++ b)%string = ""%string -> a = ""%string /\ b = ""%string.
Proof. destruct a; simpl; [tauto | discriminate]. Qed.

Lemma group_fold_single (l xs : list Datum) :
  fold_left (group_step (fun _ => ""%string)) l [(""%string, xs)] =
  [(""%string, app xs l)].
Proof.
  revert xs; induction l as [|x l IH]; intros xs; simpl.
  - rewrite app_nil_r. reflexivity.
  - unfold group_step at 2. simpl. rewrite IH, <- app_assoc. reflexivity.
Qed.

End Facts.

(* ------------------------------------------------------------------ *)
(** ** The claims *)

Import JsString JsNumber Pipeline Samples Facts.
Local Open Scope string_scope.

(** C1: a filter ["All"] on Region still drops the records whose Region is
    ["Canada"]; a filter ["All"] on Scenario, Variable or Year constrains
    nothing. Adding such a filter to any filter set refines the result of
    the other filters by exactly that predicate. *)
Theorem useFilteredData_all_filter (data : list Datum) (fs : list Filter)
    (D : Dimension) :
  useFilteredData (Some data) (mkFilter D "All" :: fs) =
  option_map
    (filter (fun d => match D with
                      | DRegion => negb (String.eqb (Region d) "Canada")
                      | _ => true
                      end))
    (useFilteredData (Some data) fs).
Proof.
  unfold useFilteredData. simpl.
  assert (HM : forall d, filter_matches d (mkFilter D "All") =
                 match D with
                 | DRegion => negb (String.eqb (Region d) "Canada")
                 | _ => true
                 end) by (intros d; destruct D; reflexivity).
  destruct fs as [|f fs].
  - simpl. apply f_equal, filter_ext. intros d. rewrite HM, andb_true_r.
    reflexivity.
  - simpl. f_equal.
    rewrite <- filter_andb. apply filter_ext. intros d.
    rewrite <- HM. reflexivity.
Qed.

(** C2: the text-to-records step of [useData] never fails with
    [MissingHeaders]: splitting always yields a first line, so the
    [!headers] guard cannot fire, and the empty text parses to no
    records. *)
Theorem useData_missing_headers_unreachable :
  useData "" = Ok [] /\ forall csv, useData csv <> Err MissingHeaders.
Proof.
  split; [reflexivity|].
  intros csv. unfold useData, split_lf.
  destruct (split_crlf_opt_aux [] (list_ascii_of_string (trim csv))) as [|l ls] eqn:E.
  - exfalso. exact (split_crlf_opt_aux_nil _ _ E).
  - simpl. destruct (map_result _ _) as [rows|e] eqn:M.
    + destruct (array_parse rows); discriminate.
    + apply map_result_err in M as [x [_ Hx]].
      apply row_entries_aux_err in Hx as [j ->]. discriminate.
Qed.

(** C4: the label of a record is, by the unconstrained dimensions among
    Region, Variable and Scenario, the one of the spec's decision table. *)
Theorem groupByFn_label_rule (aR aV aS : bool) (d : Datum) :
  groupByFn aR aV aS d = spec_label aR aV aS d.
Proof.
  unfold groupByFn, spec_label.
  destruct aR, aV, aS; simpl;
    rewrite ?append_empty_r, ?append_assoc; reflexivity.
Qed.

(** C5: each option list is ["All"] followed by the distinct stringified
    values of the dimension, without duplicates, in ascending code-unit
    order, one more entry than there are distinct values. *)
Theorem useDimensions_options_complete (data : list Datum) (D : Dimension) :
  exists opts rest,
    useDimensions (Some data) = Some opts /\
    dimension_options opts D = "All" :: rest /\
    NoDup rest /\
    Sorted (fun a b => String.compare a b = Lt) rest /\
    (forall x, In x rest <-> exists d, In d data /\ dimension_string D d = x) /\
    length (dimension_options opts D) =
      S (length (nodup string_dec (map (dimension_string D) data))).
Proof.
  set (xs := map (dimension_string D) data).
  assert (HP : Permutation (sort_strings (set_from_list xs)) (set_from_list xs))
    by apply sort_by_perm.
  assert (HN : NoDup (sort_strings (set_from_list xs)))
    by (eapply Permutation_NoDup; [symmetry; exact HP | apply set_from_list_NoDup]).
  assert (Hopt : dimension_options
                   (mkDimensionOptions (options_of DScenario data)
                      (options_of DRegion data) (options_of DVariable data)
                      (options_of DYear data)) D
                 = "All" :: sort_strings (set_from_list xs))
    by (destruct D; reflexivity).
  eexists _, _. split; [reflexivity|]. split; [exact Hopt|].
  split; [exact HN|]. split.
  - eapply sorted_strict; [apply sort_by_sorted, String.compare_antisym | exact HN|].
    intros a b Hab Hne. destruct (String.compare a b) eqn:E; try congruence.
    apply String.compare_eq_iff in E. contradiction.
  - split.
    + intros x. split.
      * intros Hx. apply (Permutation_in _ HP), (proj1 (set_from_list_In _ _)) in Hx.
        unfold xs in Hx. apply in_map_iff in Hx. firstorder.
      * intros Hx. apply (Permutation_in _ (Permutation_sym HP)), (proj2 (set_from_list_In _ _)).
        unfold xs. apply in_map_iff. firstorder.
    + rewrite Hopt. simpl. f_equal.
      rewrite (Permutation_length HP). apply Permutation_length.
      apply NoDup_Permutation; [apply set_from_list_NoDup | apply NoDup_nodup|].
      intros x. rewrite set_from_list_In, nodup_In. reflexivity.
Qed.

(** C9, counterexample: the entry stored for the selection
    [("a", "b.c")] answers the lookup of the different selection
    [("a.b", "c")], which is then served from the cache without a
    fetch. *)
Lemma cache_key_collision :
  ("a.b", "c") <> ("a", "b.c") /\
  DimensionDataCache.useDimensionData_effect
    (DimensionDataCache.on_fetched [] "a" "b.c" [("Wind", JFin 5 0, JFin 1 0)])
    (Some "a.b") (Some "c")
  = DimensionDataCache.UseCached [("Wind", JFin 5 0, JFin 1 0)].
Proof. split; [discriminate | reflexivity]. Qed.

(** C9, as the code has it: for set, non-empty selections the cache is
    consulted under the string key [Scenarios ++ "." ++ Regions] before
    any fetch, and an entry stored for one selection answers every
    selection with the same concatenated key. *)
Theorem useDimensionData_string_keyed_cache
    (c : DimensionDataCache.cache) (s r s' r' : string)
    (d : list DimensionDataCache.DimensionData) :
  DimensionDataCache.useDimensionData_effect c (Some s) (Some r) =
    (if String.eqb s "" || String.eqb r "" then DimensionDataCache.Skip
     else match DimensionDataCache.cache_get c (s ++ "." ++ r) with
          | Some e => DimensionDataCache.UseCached e
          | None => DimensionDataCache.Fetch ("/" ++ s ++ "/" ++ r ++ ".json")
          end) /\
  DimensionDataCache.cache_get (DimensionDataCache.on_fetched c s r d)
    (DimensionDataCache.cache_key s' r') =
    (if String.eqb (s ++ "." ++ r) (s' ++ "." ++ r') then Some d
     else DimensionDataCache.cache_get c (DimensionDataCache.cache_key s' r')).
Proof. split; reflexivity. Qed.

(** C10: [parse.mjs] splits only at CR LF. A text without CR LF is one
    line, the trimmed text, which becomes the header line, and no record
    is parsed; the in-app parser splits the same trimmed text into one
    line more than it has LF characters. *)
Theorem parse_mjs_splits_only_at_crlf (csv : string)
    (H : has_crlf (list_ascii_of_string csv) = false) :
  ParseMjs.lines csv = [trim csv] /\
  ParseMjs.data csv = Some [] /\
  length (split_lf (trim csv)) =
    S (count_occ ascii_dec (list_ascii_of_string (trim csv)) "010"%char).
Proof.
  assert (Hl : ParseMjs.lines csv = [trim csv]).
  { unfold ParseMjs.lines, split_crlf.
    destruct (trim_infix csv) as [p [q Hpq]].
    rewrite Hpq in H.
    apply has_crlf_app_r, has_crlf_app_l in H.
    rewrite split_crlf_aux_no_crlf by exact H. simpl.
    rewrite string_of_list_ascii_of_string. reflexivity. }
  split; [exact Hl|]. split.
  - unfold ParseMjs.data, ParseMjs.headers. rewrite Hl. reflexivity.
  - unfold split_lf. rewrite length_map. apply split_crlf_opt_aux_length.
Qed.

(** C3, counterexample: a row whose Year cell is [Infinity] is accepted,
    and the parse succeeds with an infinite Year. *)
Lemma useData_accepts_infinite_year :
  useData infinity_csv =
    Ok [mkDatum "ON" "Base" "Wind" (JInf false) (JFin 7 0)] /\
  is_finite (JInf false) = false.
Proof. split; vm_compute; reflexivity. Qed.

(** C3, as the code has it: a row whose Year or Value cell coerces to NaN
    (a non-numeric or missing cell) makes the whole parse fail, and every
    record of a successful parse has a Year and a Value that are not NaN
    (they may be infinite). *)
Theorem useData_nan_fails_whole_parse (csv : string) :
  (forall data, useData csv = Ok data -> Forall not_nan_datum data) /\
  (forall h rows,
     hd_error (split_lf (trim csv)) = Some h ->
     map_result (row_entries (split_char "," (remove_quotes h)))
       (tl (split_lf (trim csv))) = Ok rows ->
     Exists (fun o => zod_coerce_number (obj_get o "Year") = None \/
                      zod_coerce_number (obj_get o "Value") = None) rows ->
     useData csv = Err SchemaError).
Proof.
  split.
  - intros data H.
    destruct (useData_ok _ _ H) as [h [rows [raw [_ [_ [A ->]]]]]].
    apply array_parse_not_nan in A.
    apply Forall_forall. intros d Hd.
    apply (Permutation_in _ (sort_by_perm _ _)) in Hd.
    rewrite Forall_forall in A. exact (A d Hd).
  - intros h rows Hh Hr Hx. unfold useData. rewrite Hh, Hr.
    rewrite (array_parse_bad_row _ Hx). reflexivity.
Qed.

(** C7: a successful parse is the records of the rows, in row order,
    stably sorted by Year: adjacent Years are non-decreasing, and the
    records of one Year keep their row order. *)
Theorem useData_sorted_stable (csv : string) (data : list Datum)
    (H : useData csv = Ok data) :
  exists h rows raw,
    hd_error (split_lf (trim csv)) = Some h /\
    map_result (row_entries (split_char "," (remove_quotes h)))
      (tl (split_lf (trim csv))) = Ok rows /\
    array_parse rows = Some raw /\
    Sorted (fun a b => year_cmp a b <> Gt) data /\
    Permutation data raw /\
    (forall d, In d raw ->
       filter (fun x => match year_cmp x d with Eq => true | _ => false end) data =
       filter (fun x => match year_cmp x d with Eq => true | _ => false end) raw).
Proof.
  destruct (useData_ok _ _ H) as [h [rows [raw [Hh [Hr [A ->]]]]]].
  exists h, rows, raw. split; [exact Hh|]. split; [exact Hr|].
  split; [exact A|]. split; [apply sort_by_sorted, year_cmp_antisym|].
  split; [apply sort_by_perm|].
  intros d Hd. apply sort_by_filter.
  apply array_parse_not_nan in A. rewrite Forall_forall in A.
  intros x y Hx Hy Kx Ky.
  destruct (year_cmp x d) eqn:Ex; try discriminate.
  destruct (year_cmp y d) eqn:Ey; try discriminate.
  assert (E : year_cmp x y = Eq).
  { unfold year_cmp in *.
    apply (sub_sign_eq_trans _ _ (Year d)); try assumption.
    - apply (A x Hx).
    - apply (A y Hy).
    - apply (A d Hd). }
  rewrite E. discriminate.
Qed.

(** C6, counterexample: with Region unconstrained, the record of Region
    ["b"] is seen before the record of Region ["1"], yet the series of
    label ["1"] comes first: [Object.entries] lists array-index keys
    first. *)
Lemma useChartData_index_labels_first :
  set_from_list (map (groupByFn true false false) [region_b; region_1]) = ["b"; "1"] /\
  option_map (map label)
    (useChartData (Some [region_b; region_1]) [mkFilter DRegion "All"])
  = Some ["1"; "b"].
Proof. split; vm_compute; reflexivity. Qed.

(** C6, as the code has it: the series cover the filtered records exactly
    once each, no series is empty, every record of a series has the
    series' label, labels are distinct, and the labels that are array
    indices come first in ascending numeric order, followed by the other
    labels in order of first occurrence. *)
Theorem useChartData_series_cover (data : list Datum) (filters : list Filter) :
  let aR := includes (allDimensions filters) DRegion in
  let aV := includes (allDimensions filters) DVariable in
  let aS := includes (allDimensions filters) DScenario in
  let firstseen := set_from_list (map (groupByFn aR aV aS) data) in
  exists ss idx,
    useChartData (Some data) filters = Some ss /\
    Permutation (concat (map series_data ss)) data /\
    Forall (fun s => series_data s <> [] /\
                     Forall (fun d => groupByFn aR aV aS d = label s) (series_data s)) ss /\
    NoDup (map label ss) /\
    map label ss = app idx (filter (fun k => negb (is_array_index k)) firstseen) /\
    Permutation idx (filter is_array_index firstseen) /\
    Sorted (fun a b => key_index_cmp a b <> Gt) idx.
Proof.
  intros aR aV aS firstseen.
  set (g := object_groupBy (groupByFn aR aV aS) data).
  exists (map (fun '(k, g) => mkSeries k g) (object_entries g)).
  exists (sort_by key_index_cmp (filter is_array_index firstseen)).
  split; [reflexivity|].
  assert (Hk : map fst g = firstseen) by apply object_groupBy_keys.
  split.
  - rewrite series_of_entries_data.
    eapply perm_trans; [apply perm_concat_map, object_entries_perm|].
    apply object_groupBy_perm.
  - split.
    + pose proof (object_groupBy_ok (groupByFn aR aV aS) data) as Hok.
      fold g in Hok. rewrite Forall_forall in Hok |- *.
      intros s Hs. apply in_map_iff in Hs as [[k xs] [<- Hin]].
      apply (Permutation_in _ (object_entries_perm g)) in Hin.
      exact (Hok _ Hin).
    + rewrite series_of_entries_label. split.
      * eapply Permutation_NoDup.
        -- apply Permutation_sym, Permutation_map, object_entries_perm.
        -- rewrite Hk. apply set_from_list_NoDup.
      * rewrite object_entries_keys, Hk. split; [reflexivity|].
        split; [apply sort_by_perm|].
        apply sort_by_sorted, key_index_cmp_antisym.
Qed.

(** C8, counterexample: with Region unconstrained, a record whose Region is
    empty gets the empty label; and with all three dimensions constrained,
    an empty filtered sequence forms no series at all. *)
Lemma empty_label_not_only_when_constrained :
  groupByFn true false false region_empty = "" /\
  useChartData (Some []) [mkFilter DRegion "ON"] = Some [].
Proof. split; reflexivity. Qed.

(** C8, as the code has it: when none of Region, Variable and Scenario has
    the filter value ["All"], a non-empty filtered sequence forms exactly one
    series, with the empty label, holding all its records in order, and an
    empty one forms none; and in general a label is empty exactly when at
    most one of the three is unconstrained and the record's value for it
    is empty. *)
Theorem useChartData_empty_label (data : list Datum) (filters : list Filter)
    (HR : includes (allDimensions filters) DRegion = false)
    (HV : includes (allDimensions filters) DVariable = false)
    (HS : includes (allDimensions filters) DScenario = false) :
  useChartData (Some data) filters =
    Some (match data with [] => [] | _ => [mkSeries "" data] end) /\
  (forall (aR aV aS : bool) (d : Datum),
     groupByFn aR aV aS d = "" <->
     (if aR then Region d = "" /\ aV = false /\ aS = false
      else if aV then Variable_ d = "" /\ aS = false
      else aS = false \/ Scenario d = "")).
Proof.
  split.
  - unfold useChartData. rewrite HR, HV, HS.
    destruct data as [|x l]; [reflexivity|].
    unfold object_groupBy. simpl. fold (group_step (groupByFn false false false)).
    assert (Hf : group_step (groupByFn false false false) = group_step (fun _ => ""))
      by reflexivity.
    rewrite Hf, group_fold_single. reflexivity.
  - intros aR aV aS d. unfold groupByFn.
    destruct aR, aV, aS, (Region d), (Variable_ d), (Scenario d);
      simpl; intuition discriminate.
Qed.

(** Witnesses: the theorems with hypotheses, applied at concrete inputs. *)

Lemma useData_nan_fails_whole_parse_witness :
  Forall not_nan_datum [mkDatum "ON" "Base" "Wind" (JInf false) (JFin 7 0)] /\
  useData nan_csv = Err SchemaError.
Proof.
  split.
  - apply (proj1 (useData_nan_fails_whole_parse infinity_csv)).
    vm_compute. reflexivity.
  - eapply (proj2 (useData_nan_fails_whole_parse nan_csv)).
    + vm_compute. reflexivity.
    + vm_compute. reflexivity.
    + apply Exists_cons_tl, Exists_cons_hd. left. vm_compute. reflexivity.
Defined.

Lemma useData_sorted_stable_witness :
  useData sample_csv = Ok sample_sorted /\
  exists h rows raw,
    hd_error (split_lf (trim sample_csv)) = Some h /\
    map_result (row_entries (split_char "," (remove_quotes h)))
      (tl (split_lf (trim sample_csv))) = Ok rows /\
    array_parse rows = Some raw /\
    Sorted (fun a b => year_cmp a b <> Gt) sample_sorted /\
    Permutation sample_sorted raw /\
    (forall d, In d raw ->
       filter (fun x => match year_cmp x d with Eq => true | _ => false end) sample_sorted =
       filter (fun x => match year_cmp x d with Eq => true | _ => false end) raw).
Proof.
  split; [vm_compute; reflexivity|].
  apply (useData_sorted_stable sample_csv sample_sorted).
  vm_compute. reflexivity.
Defined.

Lemma useChartData_empty_label_witness :
  includes (allDimensions [mkFilter DScenario "Base"; mkFilter DRegion "ON"]) DRegion = false /\
  useChartData (Some sample_sorted) [mkFilter DScenario "Base"; mkFilter DRegion "ON"] =
    Some [mkSeries "" sample_sorted].
Proof.
  split; [reflexivity|].
  apply (useChartData_empty_label sample_sorted
           [mkFilter DScenario "Base"; mkFilter DRegion "ON"]);
    reflexivity.
Defined.

Lemma parse_mjs_splits_only_at_crlf_witness :
  has_crlf (list_ascii_of_string sample_csv) = false /\
  ParseMjs.lines sample_csv = [trim sample_csv] /\
  ParseMjs.data sample_csv = Some [] /\
  length (split_lf (trim sample_csv)) =
    S (count_occ ascii_dec (list_ascii_of_string (trim sample_csv)) "010"%char).
Proof.
  split; [vm_compute; reflexivity|].
  apply parse_mjs_splits_only_at_crlf. vm_compute. reflexivity.
Defined.

(* ------------------------------------------------------------------ *)
(** ** Facts about the rest of the code *)

Module MoreFacts.

Import JsString JsNumber Pipeline SectionState ParseMjsOutput Facts.
Local Open Scope string_scope.

(** *** [Object.groupBy]: each group is the filter of its key *)

Section GroupContent.
Context {A : Type} (f : A -> string).

(** [g] is the grouping of the prefix [p]. *)
Definition groups_of (p : list A) (g : list (string * list A)) : Prop :=
  NoDup (map fst g) /\
  (forall k xs, In (k, xs) g -> xs = filter (fun x => String.eqb (f x) k) p) /\
  (forall x, In x p -> In (f x) (map fst g)).

Lemma In_group_insert (k : string) (x : A) (g : list (string * list A))
    (k' : string) (xs' : list A) :
  NoDup (map fst g) -> In (k', xs') (group_insert k x g) ->
  (k' <> k /\ In (k', xs') g) \/
  (k' = k /\ ((exists xs, In (k, xs) g /\ xs' = app xs [x]) \/
              (~ In k (map fst g) /\ xs' = [x]))).
Proof.
  induction g as [|[k0 xs0] g IH]; simpl; intros Hnd Hin.
  - destruct Hin as [Hin|[]]. injection Hin as <- <-.
    right. split; [reflexivity | right; split; [tauto | reflexivity]].
  - inversion Hnd as [|? ? Hk0 Hnd']; subst.
    destruct (String.eqb k k0) eqn:E.
    + apply String.eqb_eq in E; subst k0.
      destruct Hin as [Hin|Hin].
      * injection Hin as <- <-. right. split; [reflexivity|].
        left. exists xs0. split; [left; reflexivity | reflexivity].
      * left. split; [|right; exact Hin].
        intros Hk. subst k'. apply Hk0. apply (in_map fst) in Hin. exact Hin.
    + apply String.eqb_neq in E.
      destruct Hin as [Hin|Hin].
      * injection Hin as <- <-. left.
        split; [intros H; apply E; symmetry; exact H | left; reflexivity].
      * destruct (IH Hnd' Hin) as [[H1 H2]|[H1 [[xs [H2 H3]]|[H2 H3]]]].
        -- left. split; [exact H1 | right; exact H2].
        -- right. split; [exact H1|]. left. exists xs.
           split; [right; exact H2 | exact H3].
        -- right. split; [exact H1|]. right. split; [|exact H3].
           intros [H|H]; [apply E; symmetry; exact H | exact (H2 H)].
Qed.

Lemma not_in_keys_filter (p : list A) (g : list (string * list A)) k :
  (forall x, In x p -> In (f x) (map fst g)) -> ~ In k (map fst g) ->
  filter (fun x => String.eqb (f x) k) p = [].
Proof.
  intros Hc Hk. induction p as [|y p IH]; simpl; [reflexivity|].
  destruct (String.eqb (f y) k) eqn:E.
  - apply String.eqb_eq in E. exfalso. apply Hk. rewrite <- E.
    apply Hc. left; reflexivity.
  - apply IH. intros x Hx. apply Hc. right; exact Hx.
Qed.

Lemma groups_of_step (p : list A) (g : list (string * list A)) (x : A) :
  groups_of p g -> groups_of (app p [x]) (group_insert (f x) x g).
Proof.
  intros [Hnd [Hc Hcov]]. split; [|split].
  - rewrite group_insert_keys.
    destruct (existsb (String.eqb (f x)) (map fst g)) eqn:E; [exact Hnd|].
    apply NoDup_app; [exact Hnd | repeat constructor; simpl; tauto |].
    intros z Hz [Hzx|[]]; subst z.
    assert (existsb (String.eqb (f x)) (map fst g) = true) as E'
      by (apply existsb_exists; exists (f x); split; [exact Hz | apply String.eqb_refl]).
    congruence.
  - intros k' xs' Hin.
    destruct (In_group_insert _ _ _ _ _ Hnd Hin)
      as [[H1 H2]|[H1 [[xs [H2 H3]]|[H2 H3]]]].
    + rewrite filter_app, <- (Hc _ _ H2). simpl.
      destruct (String.eqb (f x) k') eqn:E.
      * apply String.eqb_eq in E. congruence.
      * rewrite app_nil_r. reflexivity.
    + subst k'. rewrite filter_app, <- (Hc _ _ H2), H3. simpl.
      rewrite String.eqb_refl. reflexivity.
    + subst k'. rewrite filter_app, (not_in_keys_filter p g (f x) Hcov H2), H3.
      simpl. rewrite String.eqb_refl. reflexivity.
  - intros y Hy. rewrite group_insert_keys.
    apply in_app_iff in Hy as [Hy|[Hy|[]]].
    + destruct (existsb _ _); [apply Hcov, Hy | apply in_app_iff; left; apply Hcov, Hy].
    + subst y. destruct (existsb (String.eqb (f x)) (map fst g)) eqn:E.
      * apply existsb_exists in E as [z [Hz Hzy]].
        apply String.eqb_eq in Hzy. subst z. exact Hz.
      * apply in_app_iff. right. left. reflexivity.
Qed.

Lemma groups_of_fold (l p : list A) (g : list (string * list A)) :
  groups_of p g ->
  groups_of (app p l) (fold_left (fun g x => group_insert (f x) x g) l g).
Proof.
  revert p g; induction l as [|x l IH]; intros p g H; simpl.
  - rewrite app_nil_r. exact H.
  - replace (app p (x :: l)) with (app (app p [x]) l)
      by (rewrite <- app_assoc; reflexivity).
    apply IH, groups_of_step, H.
Qed.

Lemma object_groupBy_groups (l : list A) : groups_of l (object_groupBy f l).
Proof.
  apply (groups_of_fold l [] []).
  split; [constructor|]. split; [intros k xs []|intros x []].
Qed.

Lemma object_groupBy_content (l : list A) (k : string) (xs : list A) :
  In (k, xs) (object_groupBy f l) -> xs = filter (fun x => String.eqb (f x) k) l.
Proof. apply (object_groupBy_groups l). Qed.

Lemma object_groupBy_cover (l : list A) (x : A) :
  In x l -> In (f x) (map fst (object_groupBy f l)).
Proof. apply (object_groupBy_groups l). Qed.

End GroupContent.

Lemma In_object_entries {B : Type} (o : list (string * B)) e :
  In e (object_entries o) <-> In e o.
Proof.
  split; apply Permutation_in;
    [apply object_entries_perm | apply Permutation_sym, object_entries_perm].
Qed.

Lemma object_entries_keys_NoDup {B : Type} (o : list (string * B)) :
  NoDup (map fst o) -> NoDup (map fst (object_entries o)).
Proof.
  intros H. eapply Permutation_NoDup; [|exact H].
  apply Permutation_sym, Permutation_map, object_entries_perm.
Qed.

(** *** Strings *)

Lemma las_app (a b : string) :
  list_ascii_of_string (a ++ b) = app (list_ascii_of_string a) (list_ascii_of_string b).
Proof. induction a as [|c a IH]; simpl; [reflexivity | rewrite IH; reflexivity]. Qed.

Lemma string_length_app (a b : string) :
  String.length (a ++ b) = (String.length a + String.length b)%nat.
Proof. induction a as [|c a IH]; simpl; [reflexivity | rewrite IH; reflexivity]. Qed.

Lemma substring_prefix (s t : string) :
  String.substring 0 (String.length s) (s ++ t) = s.
Proof.
  induction s as [|c s IH]; simpl; [destruct t; reflexivity | rewrite IH; reflexivity].
Qed.

Lemma dot_split r1 s1 r2 s2 :
  has_dot r1 = false -> has_dot r2 = false ->
  r1 ++ "." ++ s1 = r2 ++ "." ++ s2 -> r1 = r2 /\ s1 = s2.
Proof.
  revert r2; induction r1 as [|c1 r1 IH]; intros r2 H1 H2 H;
    destruct r2 as [|c2 r2]; simpl in *.
  - injection H as H. split; [reflexivity | exact H].
  - injection H as Hc _. subst c2. discriminate.
  - injection H as Hc _. subst c1. discriminate.
  - apply orb_false_iff in H1 as [_ H1]. apply orb_false_iff in H2 as [_ H2].
    injection H as Hc H. subst c2.
    destruct (IH r2 H1 H2 H) as [-> ->]. split; reflexivity.
Qed.

(** *** [trim] and padding *)

Lemma drop_space_app l q :
  drop_space (app l q) =
  if forallb is_js_space l then drop_space q else app (drop_space l) q.
Proof.
  induction l as [|c l IH]; simpl; [reflexivity|].
  destruct (is_js_space c); simpl; [exact IH | reflexivity].
Qed.

Lemma drop_space_all l : forallb is_js_space l = true -> drop_space l = [].
Proof.
  induction l as [|c l IH]; simpl; [reflexivity|].
  intros H. apply andb_true_iff in H as [-> H]. apply IH, H.
Qed.

Lemma forallb_rev {B : Type} (p : B -> bool) l : forallb p (rev l) = forallb p l.
Proof.
  induction l as [|x l IH]; simpl; [reflexivity|].
  rewrite forallb_app, IH. simpl. rewrite andb_true_r, andb_comm. reflexivity.
Qed.

Lemma trim_pad pre s post :
  forallb is_js_space (list_ascii_of_string pre) = true ->
  forallb is_js_space (list_ascii_of_string post) = true ->
  trim (pre ++ s ++ post) = trim s.
Proof.
  intros Hp Hq. unfold trim. rewrite !las_app, drop_space_app, Hp, drop_space_app.
  destruct (forallb is_js_space (list_ascii_of_string s)) eqn:Hs.
  - rewrite (drop_space_all _ Hq), (drop_space_all _ Hs). reflexivity.
  - rewrite rev_app_distr, drop_space_app, forallb_rev, Hq. reflexivity.
Qed.

Lemma trim_blank s :
  forallb is_js_space (list_ascii_of_string s) = true -> trim s = "".
Proof. intros H. unfold trim. rewrite (drop_space_all _ H). reflexivity. Qed.

(** *** Cells of a data line *)

Lemma nth_error_skipn {B : Type} (l : list B) i h :
  nth_error l i = Some h -> skipn i l = h :: skipn (S i) l.
Proof.
  revert i; induction l as [|y l IH]; intros [|i] H; simpl in *; try discriminate.
  - injection H as <-. reflexivity.
  - apply IH, H.
Qed.

Lemma row_entries_aux_shape hs cells i :
  (i <= length hs)%nat ->
  Pipeline.row_entries_aux hs i cells =
  if (i + length cells <=? length hs)%nat
  then Ok (combine (skipn i hs) (map unquote_cell cells))
  else Err (MissingHeaderAt (length hs)).
Proof.
  revert i; induction cells as [|c cells IH]; intros i Hi; simpl.
  - rewrite Nat.add_0_r. destruct (Nat.leb_spec i (length hs)); [|lia].
    destruct (skipn i hs); reflexivity.
  - destruct (nth_error hs i) as [h|] eqn:E.
    + assert (i < length hs)%nat by (apply nth_error_Some; congruence).
      rewrite IH by lia. rewrite (nth_error_skipn _ _ _ E).
      replace (i + S (length cells))%nat with (S i + length cells)%nat by lia.
      destruct (S i + length cells <=? length hs)%nat; reflexivity.
    + apply nth_error_None in E.
      destruct (Nat.leb_spec (i + S (length cells)) (length hs)); [lia|].
      replace i with (length hs) by lia. reflexivity.
Qed.

(** *** The filter state of [Section] *)

Lemma Dimension_eqb_eq a b : Dimension_eqb a b = true <-> a = b.
Proof. destruct a, b; simpl; split; intros; congruence. Qed.

Lemma map_dimension_set_filter D v fs :
  map dimension (set_filter D v fs) =
  app (filter (fun D' => negb (Dimension_eqb D' D)) (map dimension fs)) [D].
Proof.
  unfold set_filter. rewrite map_app. f_equal.
  induction fs as [|f fs IH]; simpl; [reflexivity|].
  destruct (negb (Dimension_eqb (dimension f) D)); simpl; rewrite IH; reflexivity.
Qed.

(** One filter per dimension. *)
Definition filters_ok (fs : list Filter) : Prop :=
  NoDup (map dimension fs) /\ forall D, In D (map dimension fs).

Lemma filters_ok_set D v fs : filters_ok fs -> filters_ok (set_filter D v fs).
Proof.
  intros [Hnd Hall]. unfold filters_ok. rewrite map_dimension_set_filter. split.
  - apply NoDup_app; [apply NoDup_filter, Hnd | repeat constructor; simpl; tauto |].
    intros a Ha [HaD|[]]. subst a. apply filter_In in Ha as [_ Ha].
    rewrite (proj2 (Dimension_eqb_eq D D) eq_refl) in Ha. discriminate.
  - intros D'. apply in_app_iff.
    destruct (Dimension_eqb D' D) eqn:E.
    + right. left. symmetry. apply Dimension_eqb_eq, E.
    + left. apply filter_In. split; [apply Hall | rewrite E; reflexivity].
Qed.

Lemma filters_ok_fold sel fs :
  filters_ok fs ->
  filters_ok (fold_left (fun fs '(D, v) => set_filter D v fs) sel fs).
Proof.
  revert fs; induction sel as [|[D v] sel IH]; intros fs H; simpl; [exact H|].
  apply IH, filters_ok_set, H.
Qed.

Lemma find_filter_set D v fs D' :
  find_filter (set_filter D v fs) D' =
  if Dimension_eqb D' D then Some (mkFilter D v) else find_filter fs D'.
Proof.
  unfold find_filter, set_filter.
  induction fs as [|f fs IH]; simpl.
  - destruct D, D'; reflexivity.
  - destruct (Dimension_eqb (dimension f) D) eqn:E; simpl.
    + rewrite IH. apply Dimension_eqb_eq in E. rewrite E.
      destruct (Dimension_eqb D' D) eqn:E'; [reflexivity|].
      destruct (Dimension_eqb D D') eqn:E''; [|reflexivity].
      apply Dimension_eqb_eq in E''. subst D'.
      rewrite (proj2 (Dimension_eqb_eq D D) eq_refl) in E'. discriminate.
    + destruct (Dimension_eqb (dimension f) D') eqn:E'; [|exact IH].
      apply Dimension_eqb_eq in E'. subst D'.
      destruct (Dimension_eqb (dimension f) D); [discriminate | reflexivity].
Qed.

Lemma find_filter_fold sel fs D w :
  find_filter fs D = Some (mkFilter D w) ->
  find_filter (fold_left (fun fs '(D', v) => set_filter D' v fs) sel fs) D =
  Some (mkFilter D
          (fold_left (fun acc '(D', v) => if Dimension_eqb D' D then v else acc) sel w)).
Proof.
  revert fs w; induction sel as [|[D' v] sel IH]; intros fs w H; simpl; [exact H|].
  apply IH. rewrite find_filter_set.
  destruct (Dimension_eqb D' D) eqn:E'.
  - apply Dimension_eqb_eq in E'. subst D'.
    rewrite (proj2 (Dimension_eqb_eq D D) eq_refl). reflexivity.
  - destruct (Dimension_eqb D D') eqn:E; [|exact H].
    apply Dimension_eqb_eq in E. subst D'.
    rewrite (proj2 (Dimension_eqb_eq D D) eq_refl) in E'. discriminate.
Qed.

(** *** Filtering *)

Lemma filter_sound (data : list Datum) (fs : list Filter) (f : Filter) (d : Datum) :
  In f fs -> value f <> "All" ->
  In d (filter (fun datum => forallb (filter_matches datum) fs) data) ->
  dimension_string (dimension f) d = value f.
Proof.
  intros Hf Hv Hd. apply filter_In in Hd as [_ Hd].
  rewrite forallb_forall in Hd. specialize (Hd f Hf). unfold filter_matches in Hd.
  destruct (String.eqb (value f) "All") eqn:E; [apply String.eqb_eq in E; contradiction|].
  apply String.eqb_eq, Hd.
Qed.

Lemma forallb_perm {B : Type} (p : B -> bool) l l' :
  Permutation l l' -> forallb p l = forallb p l'.
Proof.
  induction 1 as [|x l l' _ IH|x y l|l l' l'' _ IH1 _ IH2]; simpl.
  - reflexivity.
  - rewrite IH. reflexivity.
  - rewrite !andb_assoc, (andb_comm (p y)). reflexivity.
  - congruence.
Qed.

(** *** Sorted sets of strings *)

Lemma sort_strings_set_spec xs :
  NoDup (sort_strings (set_from_list xs)) /\
  Sorted (fun a b => String.compare a b = Lt) (sort_strings (set_from_list xs)) /\
  (forall x, In x (sort_strings (set_from_list xs)) <-> In x xs).
Proof.
  assert (HP : Permutation (sort_strings (set_from_list xs)) (set_from_list xs))
    by apply sort_by_perm.
  assert (HN : NoDup (sort_strings (set_from_list xs)))
    by (eapply Permutation_NoDup; [symmetry; exact HP | apply set_from_list_NoDup]).
  split; [exact HN|]. split.
  - eapply sorted_strict; [apply sort_by_sorted, String.compare_antisym | exact HN|].
    intros a b Hab Hne. destruct (String.compare a b) eqn:E; try congruence.
    apply String.compare_eq_iff in E. contradiction.
  - intros x. rewrite <- (set_from_list_In xs x). split; apply Permutation_in;
      [exact HP | apply Permutation_sym, HP].
Qed.

(** *** The files of [parse.mjs] *)

Lemma written_files_In ds path rows :
  In (path, rows) (written_files ds) ->
  exists d0, In d0 ds /\ path = file_path d0 /\
    rows = map row_values
             (filter (fun d => String.eqb (group_key d) (group_key d0)) ds).
Proof.
  unfold written_files. intros H. apply in_flat_map in H as [[k g] [Hkg H]].
  apply (proj1 (In_object_entries _ _)) in Hkg. unfold dataByRegionAndScenario in Hkg.
  pose proof (object_groupBy_content group_key ds k g Hkg) as Hg.
  destruct g as [|d0 g]; [destruct H|]. destruct H as [H|[]].
  injection H as <- <-.
  assert (In d0 (d0 :: g)) as Hd0 by (left; reflexivity).
  rewrite Hg in Hd0.
  apply filter_In in Hd0 as [Hd0 Hk]. apply String.eqb_eq in Hk.
  exists d0. split; [exact Hd0|]. split; [reflexivity|].
  rewrite <- Hk in Hg. rewrite <- Hg. reflexivity.
Qed.


Lemma groupBy_entries_nil {A : Type} (f : A -> string) (l : list A) :
  object_entries (object_groupBy f l) = [] -> l = [].
Proof.
  intros H. pose proof (object_entries_perm (object_groupBy f l)) as P.
  rewrite H in P. apply Permutation_nil in P.
  pose proof (object_groupBy_perm f l) as Q. rewrite P in Q. simpl in Q.
  apply Permutation_nil, Q.
Qed.

Lemma filter_map_comm {B C : Type} (p : C -> bool) (g : B -> C) (l : list B) :
  filter p (map g l) = map g (filter (fun x => p (g x)) l).
Proof.
  induction l as [|x l IH]; simpl; [reflexivity|].
  destruct (p (g x)); simpl; rewrite IH; reflexivity.
Qed.

Lemma group_filter_eq (ds : list Datum) (d0 : Datum) :
  Forall (fun d => has_dot (Region d) = false) ds -> In d0 ds ->
  filter (fun d => String.eqb (group_key d) (group_key d0)) ds =
  filter (fun d => String.eqb (Region d) (Region d0)
                   && String.eqb (Scenario d) (Scenario d0)) ds.
Proof.
  intros Hnd Hd0. rewrite Forall_forall in Hnd.
  apply filter_ext_in. intros d Hd. unfold group_key.
  destruct (String.eqb (Region d ++ "." ++ Scenario d)
              (Region d0 ++ "." ++ Scenario d0)) eqn:E.
  - apply String.eqb_eq in E.
    destruct (dot_split _ _ _ _ (Hnd d Hd) (Hnd d0 Hd0) E) as [-> ->].
    rewrite !String.eqb_refl. reflexivity.
  - symmetry.
    destruct (String.eqb (Region d) (Region d0)) eqn:E1,
      (String.eqb (Scenario d) (Scenario d0)) eqn:E2; try reflexivity.
    apply String.eqb_eq in E1, E2. rewrite E1, E2, String.eqb_refl in E.
    discriminate.
Qed.

(** *** The chart data of [App.tsx] *)

Lemma app_chart_content dd ss s :
  AppChart.useChartData (Some dd) = Some ss -> In s ss ->
  AppChart.chart_data s <> [] /\
  AppChart.chart_data s =
    map AppChart.to_point
      (filter (fun t => String.eqb (AppChart.tuple_type t) (AppChart.chart_label s)) dd).
Proof.
  unfold AppChart.useChartData. intros H Hs. injection H as <-.
  apply in_map_iff in Hs as [[k g] [<- Hkg]]. simpl.
  apply (proj1 (In_object_entries _ _)) in Hkg.
  pose proof (object_groupBy_content _ _ _ _ Hkg) as Hg.
  pose proof (proj1 (Forall_forall _ _) (object_groupBy_ok AppChart.tuple_type dd) _ Hkg)
    as [Hne _].
  simpl in Hne. split; [|rewrite Hg; reflexivity].
  intros Hm. apply map_eq_nil in Hm. contradiction.
Qed.

(** *** The cache of [useDimensionData] *)

Lemma cache_get_fold c k d later :
  DimensionDataCache.cache_get c k = Some d ->
  Forall (fun '(s', r', _) => DimensionDataCache.cache_key s' r' <> k) later ->
  DimensionDataCache.cache_get
    (fold_left (fun c '(s', r', d') => DimensionDataCache.on_fetched c s' r' d') later c) k
  = Some d.
Proof.
  revert c; induction later as [|[[s' r'] d'] later IH]; intros c Hc Hl; simpl; [exact Hc|].
  inversion Hl as [|? ? Hne Hl']; subst.
  apply IH; [|exact Hl'].
  unfold DimensionDataCache.on_fetched, DimensionDataCache.cache_set. simpl.
  destruct (String.eqb _ k) eqn:E; [apply String.eqb_eq in E; contradiction | exact Hc].
Qed.

End MoreFacts.

(* ------------------------------------------------------------------ *)
(** ** Further properties of the code *)

Import SectionState ParseMjsOutput MoreFacts.

(** *** Filter Engine *)

(** X1: Filtering by a concatenation of filter lists is filtering by the
    first list, then by the second. *)
Theorem useFilteredData_compose (data : list Datum) (fs1 fs2 : list Filter) :
  useFilteredData (Some data) (app fs1 fs2) =
  useFilteredData (useFilteredData (Some data) fs1) fs2.
Proof.
  destruct fs1 as [|f1 fs1]; [reflexivity|].
  destruct fs2 as [|f2 fs2].
  - rewrite app_nil_r. reflexivity.
  - change (app (f1 :: fs1) (f2 :: fs2)) with (f1 :: app fs1 (f2 :: fs2)).
    unfold useFilteredData. lazy beta iota. f_equal.
    rewrite <- (filter_andb (fun d => forallb (filter_matches d) (f2 :: fs2))
                  (fun d => forallb (filter_matches d) (f1 :: fs1))).
    apply filter_ext. intros d.
    change (f1 :: app fs1 (f2 :: fs2)) with (app (f1 :: fs1) (f2 :: fs2)).
    rewrite forallb_app, andb_comm. reflexivity.
Qed.

(** X2: The order of the filters does not matter. *)
Theorem useFilteredData_filter_order (data : list Datum) (fs fs' : list Filter) :
  Permutation fs fs' ->
  useFilteredData (Some data) fs = useFilteredData (Some data) fs'.
Proof.
  intros HP. destruct fs as [|f fs], fs' as [|f' fs'].
  - reflexivity.
  - apply Permutation_nil in HP. discriminate.
  - apply Permutation_sym, Permutation_nil in HP. discriminate.
  - unfold useFilteredData. lazy beta iota. f_equal.
    apply filter_ext. intros d. apply forallb_perm, HP.
Qed.

(** X3: Every record kept by a filter set agrees with each of its filters
    whose value is not ["All"]. *)
Theorem useFilteredData_sound (data out : list Datum) (fs : list Filter)
    (D : Dimension) (v : string) :
  In (mkFilter D v) fs -> v <> "All" ->
  useFilteredData (Some data) fs = Some out ->
  Forall (fun d => dimension_string D d = v) out.
Proof.
  intros Hin Hv H. destruct fs as [|f fs]; [destruct Hin|].
  unfold useFilteredData in H. lazy beta iota in H. injection H as <-.
  apply Forall_forall. intros d Hd.
  exact (filter_sound data (f :: fs) (mkFilter D v) d Hin Hv Hd).
Qed.

(** *** Dimension Indexer and Filter Engine *)

(** X4: Every option of a dimension other than ["All"] selects at least one
    record when used as a filter, and only records with that value. *)
Theorem dimension_option_selects (data : list Datum) (D : Dimension) (x : string) :
  In x (tl (options_of D data)) -> x <> "All" ->
  exists out, useFilteredData (Some data) [mkFilter D x] = Some out /\
              out <> [] /\ Forall (fun d => dimension_string D d = x) out.
Proof.
  intros Hx Hne. unfold options_of in Hx. simpl in Hx.
  apply (proj1 (proj2 (proj2 (sort_strings_set_spec (map (dimension_string D) data))) x))
    in Hx.
  apply in_map_iff in Hx as [d [Hd Hin]].
  exists (filter (fun datum => forallb (filter_matches datum) [mkFilter D x]) data).
  split; [reflexivity|]. split.
  - intros Hout.
    assert (In d (filter (fun datum => forallb (filter_matches datum) [mkFilter D x]) data))
      as Hin'.
    { apply filter_In. split; [exact Hin|]. cbn [forallb]. unfold filter_matches.
      cbn [value dimension].
      destruct (String.eqb x "All") eqn:E; [apply String.eqb_eq in E; contradiction|].
      rewrite Hd, String.eqb_refl. reflexivity. }
    rewrite Hout in Hin'. destruct Hin'.
  - apply Forall_forall. intros d' Hd'.
    exact (filter_sound data [mkFilter D x] (mkFilter D x) d' (or_introl eq_refl) Hne Hd').
Qed.

(** *** The filter state of [Section] *)

(** X5: Whatever the user selects, the filter state holds exactly one filter
    per dimension. *)
Theorem section_filters_one_per_dimension (sel : list (Dimension * string)) :
  NoDup (map dimension (section_filters sel)) /\
  (forall D, In D (map dimension (section_filters sel))).
Proof.
  apply filters_ok_fold. split.
  - repeat constructor; simpl; intuition discriminate.
  - intros []; simpl; tauto.
Qed.

(** X6: The filter of a dimension holds the last value selected for it (its
    initial value when none was), and its [Select] shows that value, or
    the first option ["All"] when the value is the empty string. *)
Theorem section_filter_value (sel : list (Dimension * string)) (D : Dimension)
    (data : list Datum) :
  let w := fold_left (fun acc '(D', v) => if Dimension_eqb D' D then v else acc) sel
             (match D with DScenario => "Current Measures" | _ => "All" end) in
  find_filter (section_filters sel) D = Some (mkFilter D w) /\
  select_value (section_filters sel) D (options_of D data) =
    Some (if String.eqb w "" then "All" else w).
Proof.
  intros w.
  assert (H : find_filter (section_filters sel) D = Some (mkFilter D w))
    by (apply find_filter_fold; destruct D; reflexivity).
  split; [exact H|]. unfold select_value. rewrite H. cbn [value].
  destruct (String.eqb w ""); reflexivity.
Qed.

(** *** [Visualization] *)

(** X7: With a Year filter other than ["All"], every charted record has the
    same Year, so the primary axis shows Variables for one year. *)
Theorem visualization_year_axis (data out : list Datum) (fs : list Filter) :
  hasYearFilter fs = true -> useFilteredData (Some data) fs = Some out ->
  exists y, y <> "All" /\ Forall (fun d => number_to_string (Year d) = y) out.
Proof.
  intros Hy H. unfold hasYearFilter in Hy.
  apply existsb_exists in Hy as [f [Hf Hfy]].
  apply andb_true_iff in Hfy as [HD Hv].
  apply Dimension_eqb_eq in HD. apply negb_true_iff, String.eqb_neq in Hv.
  exists (value f). split; [exact Hv|].
  destruct fs as [|f0 fs]; [destruct Hf|].
  unfold useFilteredData in H. lazy beta iota in H. injection H as <-.
  apply Forall_forall. intros d Hd.
  pose proof (filter_sound data (f0 :: fs) f d Hf Hv Hd) as Hs.
  rewrite HD in Hs. exact Hs.
Qed.

(** X8: [Visualization] draws a chart exactly when the filtered data is
    defined and not empty. *)
Theorem renders_chart_iff (data : option (list Datum)) (fs : list Filter) :
  renders_chart data fs = true <-> exists ds, data = Some ds /\ ds <> [].
Proof.
  destruct data as [ds|].
  - unfold renders_chart, useChartData. cbv zeta. split.
    + intros H. exists ds. split; [reflexivity|]. intros ->. simpl in H. discriminate.
    + intros [ds' [Hds Hne]]. injection Hds as <-.
      destruct (map _ (object_entries _)) eqn:E; [|reflexivity].
      exfalso. apply Hne. apply map_eq_nil in E. exact (groupBy_entries_nil _ _ E).
  - split; [discriminate | intros [ds [H _]]; discriminate].
Qed.

(** *** Series Grouper *)

(** X9: Each series holds exactly the filtered records with its label, in
    their order in the input. *)
Theorem useChartData_series_content (data : list Datum) (fs : list Filter)
    (ss : list Series) :
  useChartData (Some data) fs = Some ss ->
  forall s, In s ss ->
    series_data s =
    filter (fun d => String.eqb
                       (groupByFn (includes (allDimensions fs) DRegion)
                          (includes (allDimensions fs) DVariable)
                          (includes (allDimensions fs) DScenario) d)
                       (label s)) data.
Proof.
  unfold useChartData. cbv zeta. intros H; injection H as <-. intros s Hs.
  apply in_map_iff in Hs as [[k g] [<- Hkg]]. simpl.
  apply (proj1 (In_object_entries _ _)) in Hkg.
  exact (object_groupBy_content _ _ _ _ Hkg).
Qed.

(** *** Record Parser *)

(** X10: A data line gives one entry per cell, paired with the header of its
    index and unquoted, when it has at most as many cells as there are
    headers; otherwise it fails at the first index without a header. *)
Theorem row_entries_shape (headers : list string) (line : string) :
  row_entries headers line =
  if (length (split_char "," line) <=? length headers)%nat
  then Ok (combine headers (map unquote_cell (split_char "," line)))
  else Err (MissingHeaderAt (length headers)).
Proof. unfold row_entries. rewrite row_entries_aux_shape by lia. reflexivity. Qed.

(** X11: A cell wrapped in double quotes is read as its content. *)
Theorem unquote_cell_quoted (s : string) :
  unquote_cell (String "034" (s ++ String "034" "")) = s.
Proof.
  assert (Hlen : Z.of_nat (String.length (String "034" (s ++ String "034" ""))) =
                 (Z.of_nat (String.length s) + 2)%Z).
  { cbn [String.length]. rewrite string_length_app. cbn [String.length]. lia. }
  assert (He : ends_with_quote (String "034" (s ++ String "034" "")) = true).
  { unfold ends_with_quote. cbn [list_ascii_of_string rev]. rewrite las_app.
    cbn [list_ascii_of_string]. rewrite rev_app_distr. reflexivity. }
  unfold unquote_cell. rewrite He. cbn [starts_with_quote andb].
  unfold substring_js. cbv zeta. rewrite Hlen.
  set (n := String.length s).
  replace (Z.min (Z.max 1 0) (Z.of_nat n + 2)) with 1%Z by lia.
  replace (Z.min (Z.max (Z.of_nat n + 2 - 1) 0) (Z.of_nat n + 2))
    with (Z.of_nat n + 1)%Z by lia.
  replace (Z.to_nat (Z.min 1 (Z.of_nat n + 1))) with 1%nat by lia.
  replace (Z.to_nat (Z.max 1 (Z.of_nat n + 1) - Z.min 1 (Z.of_nat n + 1))) with n by lia.
  cbn [String.substring]. apply substring_prefix.
Qed.

(** X12: Both parsers ignore whitespace and line breaks before and after the
    text. *)
Theorem parsers_ignore_padding (pre csv post : string) :
  forallb is_js_space (list_ascii_of_string pre) = true ->
  forallb is_js_space (list_ascii_of_string post) = true ->
  useData (pre ++ csv ++ post) = useData csv /\
  ParseMjs.data (pre ++ csv ++ post) = ParseMjs.data csv.
Proof.
  intros Hp Hq. split.
  - unfold useData. rewrite (trim_pad _ _ _ Hp Hq). reflexivity.
  - unfold ParseMjs.data, ParseMjs.headers, ParseMjs.lines.
    rewrite (trim_pad _ _ _ Hp Hq). reflexivity.
Qed.

(** X13: A blank Year or Value cell is accepted as 0. *)
Theorem blank_cell_is_zero (s : string) :
  forallb is_js_space (list_ascii_of_string s) = true ->
  zod_coerce_number (Some s) = Some (JFin 0 0).
Proof.
  intros H. unfold zod_coerce_number, string_to_number.
  rewrite (trim_blank _ H). reflexivity.
Qed.

(** *** The files of [parse.mjs] *)


(** X15: When no Region contains a dot, the file written for a group holds
    exactly the records with the Region and Scenario of its path, in
    input order. *)
Theorem parse_mjs_file_contents (ds : list Datum) (path : string)
    (rows : list (string * JsNumber.jsnum * JsNumber.jsnum)) :
  Forall (fun d => has_dot (Region d) = false) ds ->
  In (path, rows) (written_files ds) ->
  exists d0, In d0 ds /\ path = file_path d0 /\
    rows = map row_values
             (filter (fun d => String.eqb (Region d) (Region d0)
                               && String.eqb (Scenario d) (Scenario d0)) ds).
Proof.
  intros Hnd Hin. destruct (written_files_In _ _ _ Hin) as [d0 [Hd0 [Hp Hr]]].
  exists d0. split; [exact Hd0|]. split; [exact Hp|].
  rewrite Hr, (group_filter_eq ds d0 Hnd Hd0). reflexivity.
Qed.

(** X16: [dimensions.json] lists the distinct Scenarios and the distinct
    Regions of the data, each sorted in code-unit order. *)
Theorem parse_mjs_dimensions_json (ds : list Datum) :
  NoDup (fst (dimensions_json ds)) /\
  Sorted (fun a b => String.compare a b = Lt) (fst (dimensions_json ds)) /\
  (forall x, In x (fst (dimensions_json ds)) <-> exists d, In d ds /\ Scenario d = x) /\
  NoDup (snd (dimensions_json ds)) /\
  Sorted (fun a b => String.compare a b = Lt) (snd (dimensions_json ds)) /\
  (forall x, In x (snd (dimensions_json ds)) <-> exists d, In d ds /\ Region d = x).
Proof.
  unfold dimensions_json, Scenarios, Regions. simpl.
  destruct (sort_strings_set_spec (map Scenario ds)) as [N1 [S1 I1]].
  destruct (sort_strings_set_spec (map Region ds)) as [N2 [S2 I2]].
  repeat split; try assumption.
  - intros Hx. apply (proj1 (I1 x)), in_map_iff in Hx as [d [<- Hd]].
    exists d. split; [exact Hd | reflexivity].
  - intros [d [Hd <-]]. apply (proj2 (I1 _)), in_map, Hd.
  - intros Hx. apply (proj1 (I2 x)), in_map_iff in Hx as [d [<- Hd]].
    exists d. split; [exact Hd | reflexivity].
  - intros [d [Hd <-]]. apply (proj2 (I2 _)), in_map, Hd.
Qed.

(** *** The chart data of [App.tsx] *)

(** X17: The chart has one series per distinct type, none empty, and each
    series holds the year and value of the tuples of its type, in input
    order. *)
Theorem app_chart_series (dd : list DimensionDataCache.DimensionData)
    (ss : list AppChart.ChartSeries) :
  AppChart.useChartData (Some dd) = Some ss ->
  NoDup (map AppChart.chart_label ss) /\
  (forall s, In s ss ->
     AppChart.chart_data s <> [] /\
     AppChart.chart_data s =
       map AppChart.to_point
         (filter (fun t => String.eqb (AppChart.tuple_type t) (AppChart.chart_label s)) dd)) /\
  (forall t, In t dd -> In (AppChart.tuple_type t) (map AppChart.chart_label ss)).
Proof.
  intros H.
  assert (HL : forall o : list (string * list DimensionDataCache.DimensionData),
            map AppChart.chart_label
              (map (fun '(label, data) =>
                      AppChart.mkChartSeries label (map AppChart.to_point data)) o)
            = map fst o)
    by (induction o as [|[k g] o IH]; simpl; [reflexivity | rewrite IH; reflexivity]).
  split; [|split; [intros s Hs; exact (app_chart_content dd ss s H Hs)|]].
  - unfold AppChart.useChartData in H. injection H as <-. rewrite HL.
    apply object_entries_keys_NoDup. rewrite object_groupBy_keys. apply set_from_list_NoDup.
  - unfold AppChart.useChartData in H. injection H as <-. intros t Ht. rewrite HL.
    eapply Permutation_in;
      [apply Permutation_map, Permutation_sym, object_entries_perm|].
    apply object_groupBy_cover, Ht.
Qed.

(** X18: From the CSV records to the chart: when no Region contains a dot and
    the file that [parse.mjs] wrote for a Scenario and Region is read back
    by the app, each series of the chart holds the year and value of the
    records of that Scenario, Region and Variable, in input order. *)
Theorem parse_mjs_file_chart (ds : list Datum) (path : string)
    (rows : list DimensionDataCache.DimensionData)
    (ss : list AppChart.ChartSeries) (s : AppChart.ChartSeries) :
  Forall (fun d => has_dot (Region d) = false) ds ->
  In (path, rows) (written_files ds) ->
  AppChart.useChartData (AppChart.served rows) = Some ss ->
  In s ss ->
  exists d0, In d0 ds /\ path = file_path d0 /\
    AppChart.chart_data s =
      map (fun d => AppChart.mkChartPoint (Year d) (Value d))
        (filter (fun d => String.eqb (Region d) (Region d0)
                          && String.eqb (Scenario d) (Scenario d0)
                          && String.eqb (Variable_ d) (AppChart.chart_label s)) ds).
Proof.
  intros Hnd Hin Hc Hs.
  assert (Hsv : AppChart.served rows = Some rows).
  { unfold AppChart.served in *.
    destruct (forallb (fun t => let '(_, y, x) := t in is_finite y && is_finite x) rows);
      [reflexivity | discriminate]. }
  rewrite Hsv in Hc.
  destruct (app_chart_content _ _ _ Hc Hs) as [_ Hdata].
  destruct (written_files_In _ _ _ Hin) as [d0 [Hd0 [Hp Hr]]].
  exists d0. split; [exact Hd0|]. split; [exact Hp|].
  rewrite Hdata, Hr, (group_filter_eq ds d0 Hnd Hd0), filter_map_comm, map_map.
  rewrite <- filter_andb. f_equal. apply filter_ext. intros d.
  cbn [AppChart.tuple_type row_values]. apply andb_comm.
Qed.

(** *** The cache of [useDimensionData] *)

(** X19: Once the data of a selection has been fetched, coming back to that
    selection uses the stored data without a fetch, whatever was fetched
    in between for selections with other keys. *)
Theorem useDimensionData_revisit_cached (c : DimensionDataCache.cache)
    (s r : string) (d : list DimensionDataCache.DimensionData)
    (later : list (string * string * list DimensionDataCache.DimensionData)) :
  s <> "" -> r <> "" ->
  Forall (fun '(s', r', _) =>
            DimensionDataCache.cache_key s' r' <> DimensionDataCache.cache_key s r) later ->
  DimensionDataCache.useDimensionData_effect
    (fold_left (fun c '(s', r', d') => DimensionDataCache.on_fetched c s' r' d') later
       (DimensionDataCache.on_fetched c s r d))
    (Some s) (Some r) = DimensionDataCache.UseCached d.
Proof.
  intros Hs Hr Hl. unfold DimensionDataCache.useDimensionData_effect.
  rewrite (cache_get_fold _ _ d later); [|
    unfold DimensionDataCache.on_fetched, DimensionDataCache.cache_set;
    cbn [DimensionDataCache.cache_get]; rewrite String.eqb_refl; reflexivity
    | exact Hl].
  unfold DimensionDataCache.is_empty.
  destruct (String.eqb s "") eqn:E1; [apply String.eqb_eq in E1; contradiction|].
  destruct (String.eqb r "") eqn:E2; [apply String.eqb_eq in E2; contradiction|].
  reflexivity.
Qed.

(** *** Witnesses *)

Lemma useFilteredData_filter_order_witness :
  Permutation [mkFilter DYear "2020"; mkFilter DRegion "ON"]
    [mkFilter DRegion "ON"; mkFilter DYear "2020"] /\
  useFilteredData (Some mixed_data) [mkFilter DYear "2020"; mkFilter DRegion "ON"] =
  useFilteredData (Some mixed_data) [mkFilter DRegion "ON"; mkFilter DYear "2020"].
Proof. split; [apply perm_swap | apply useFilteredData_filter_order, perm_swap]. Defined.

Lemma useFilteredData_sound_witness :
  In (mkFilter DYear "2020") [mkFilter DYear "2020"] /\ "2020" <> "All" /\
  useFilteredData (Some mixed_data) [mkFilter DYear "2020"] =
    Some [on_wind_2020; qc_wind_2020; on_solar_2020] /\
  Forall (fun d => dimension_string DYear d = "2020")
    [on_wind_2020; qc_wind_2020; on_solar_2020].
Proof.
  split; [left; reflexivity|]. split; [discriminate|]. split; [vm_compute; reflexivity|].
  apply (useFilteredData_sound mixed_data _ [mkFilter DYear "2020"] DYear "2020");
    [left; reflexivity | discriminate | vm_compute; reflexivity].
Defined.

Lemma dimension_option_selects_witness :
  In "QC" (tl (options_of DRegion mixed_data)) /\ "QC" <> "All" /\
  exists out, useFilteredData (Some mixed_data) [mkFilter DRegion "QC"] = Some out /\
              out <> [] /\ Forall (fun d => dimension_string DRegion d = "QC") out.
Proof.
  split; [vm_compute; right; left; reflexivity|]. split; [discriminate|].
  apply dimension_option_selects; [vm_compute; right; left; reflexivity | discriminate].
Defined.

Lemma visualization_year_axis_witness :
  hasYearFilter [mkFilter DYear "2021"] = true /\
  useFilteredData (Some mixed_data) [mkFilter DYear "2021"] = Some [on_wind_2021] /\
  exists y, y <> "All" /\ Forall (fun d => number_to_string (Year d) = y) [on_wind_2021].
Proof.
  split; [vm_compute; reflexivity|]. split; [vm_compute; reflexivity|].
  apply (visualization_year_axis mixed_data _ [mkFilter DYear "2021"]);
    vm_compute; reflexivity.
Defined.

Lemma useChartData_series_content_witness :
  useChartData (Some mixed_data) [mkFilter DRegion "All"] = Some mixed_series /\
  In (mkSeries "ON" [on_wind_2020; on_solar_2020; on_wind_2021]) mixed_series /\
  series_data (mkSeries "ON" [on_wind_2020; on_solar_2020; on_wind_2021]) =
  filter (fun d => String.eqb
                     (groupByFn (includes (allDimensions [mkFilter DRegion "All"]) DRegion)
                        (includes (allDimensions [mkFilter DRegion "All"]) DVariable)
                        (includes (allDimensions [mkFilter DRegion "All"]) DScenario) d)
                     (label (mkSeries "ON" [on_wind_2020; on_solar_2020; on_wind_2021])))
    mixed_data.
Proof.
  split; [vm_compute; reflexivity|]. split; [left; reflexivity|].
  apply (useChartData_series_content mixed_data [mkFilter DRegion "All"] mixed_series);
    [vm_compute; reflexivity | left; reflexivity].
Defined.

Lemma parsers_ignore_padding_witness :
  forallb is_js_space (list_ascii_of_string lf) = true /\
  forallb is_js_space (list_ascii_of_string (" " ++ lf)) = true /\
  useData (lf ++ sample_csv ++ " " ++ lf) = useData sample_csv /\
  ParseMjs.data (lf ++ sample_csv ++ " " ++ lf) = ParseMjs.data sample_csv.
Proof.
  split; [vm_compute; reflexivity|]. split; [vm_compute; reflexivity|].
  apply (parsers_ignore_padding lf sample_csv (" " ++ lf)); vm_compute; reflexivity.
Defined.

Lemma blank_cell_is_zero_witness :
  forallb is_js_space (list_ascii_of_string (" " ++ lf)) = true /\
  zod_coerce_number (Some (" " ++ lf)) = Some (JFin 0 0).
Proof.
  split; [vm_compute; reflexivity|].
  apply blank_cell_is_zero; vm_compute; reflexivity.
Defined.

Lemma parse_mjs_file_contents_witness :
  Forall (fun d => has_dot (Region d) = false) mixed_data /\
  In ("public/Base/ON.json", on_rows) (written_files mixed_data) /\
  exists d0, In d0 mixed_data /\ "public/Base/ON.json" = file_path d0 /\
    on_rows = map row_values
                (filter (fun d => String.eqb (Region d) (Region d0)
                                  && String.eqb (Scenario d) (Scenario d0)) mixed_data).
Proof.
  assert (Hnd : Forall (fun d => has_dot (Region d) = false) mixed_data)
    by (repeat apply Forall_cons; try apply Forall_nil; reflexivity).
  assert (Hin : In ("public/Base/ON.json", on_rows) (written_files mixed_data))
    by (vm_compute; left; reflexivity).
  split; [exact Hnd|]. split; [exact Hin|].
  exact (parse_mjs_file_contents mixed_data _ _ Hnd Hin).
Defined.

Lemma app_chart_series_witness :
  AppChart.useChartData (Some on_rows) = Some on_chart /\
  NoDup (map AppChart.chart_label on_chart) /\
  (forall s, In s on_chart ->
     AppChart.chart_data s <> [] /\
     AppChart.chart_data s =
       map AppChart.to_point
         (filter (fun t => String.eqb (AppChart.tuple_type t) (AppChart.chart_label s))
            on_rows)) /\
  (forall t, In t on_rows -> In (AppChart.tuple_type t) (map AppChart.chart_label on_chart)).
Proof.
  assert (H : AppChart.useChartData (Some on_rows) = Some on_chart)
    by (vm_compute; reflexivity).
  split; [exact H | exact (app_chart_series on_rows on_chart H)].
Defined.

Lemma parse_mjs_file_chart_witness :
  Forall (fun d => has_dot (Region d) = false) mixed_data /\
  In ("public/Base/ON.json", on_rows) (written_files mixed_data) /\
  AppChart.useChartData (AppChart.served on_rows) = Some on_chart /\
  In (AppChart.mkChartSeries "Wind"
        [AppChart.mkChartPoint (JFin 2020 0) (JFin 5 0);
         AppChart.mkChartPoint (JFin 2021 0) (JFin 7 0)]) on_chart /\
  exists d0, In d0 mixed_data /\ "public/Base/ON.json" = file_path d0 /\
    [AppChart.mkChartPoint (JFin 2020 0) (JFin 5 0);
     AppChart.mkChartPoint (JFin 2021 0) (JFin 7 0)] =
      map (fun d => AppChart.mkChartPoint (Year d) (Value d))
        (filter (fun d => String.eqb (Region d) (Region d0)
                          && String.eqb (Scenario d) (Scenario d0)
                          && String.eqb (Variable_ d) "Wind") mixed_data).
Proof.
  assert (Hnd : Forall (fun d => has_dot (Region d) = false) mixed_data)
    by (repeat apply Forall_cons; try apply Forall_nil; reflexivity).
  assert (Hin : In ("public/Base/ON.json", on_rows) (written_files mixed_data))
    by (vm_compute; left; reflexivity).
  assert (Hc : AppChart.useChartData (AppChart.served on_rows) = Some on_chart)
    by (vm_compute; reflexivity).
  assert (Hs : In (AppChart.mkChartSeries "Wind"
                     [AppChart.mkChartPoint (JFin 2020 0) (JFin 5 0);
                      AppChart.mkChartPoint (JFin 2021 0) (JFin 7 0)]) on_chart)
    by (left; reflexivity).
  split; [exact Hnd|]. split; [exact Hin|]. split; [exact Hc|]. split; [exact Hs|].
  exact (parse_mjs_file_chart mixed_data _ _ _ _ Hnd Hin Hc Hs).
Defined.

Lemma useDimensionData_revisit_cached_witness :
  "Base" <> "" /\ "ON" <> "" /\
  Forall (fun '(s', r', _) =>
            DimensionDataCache.cache_key s' r' <> DimensionDataCache.cache_key "Base" "ON")
    [("Base", "QC", @nil DimensionDataCache.DimensionData)] /\
  DimensionDataCache.useDimensionData_effect
    (fold_left (fun c '(s', r', d') => DimensionDataCache.on_fetched c s' r' d')
       [("Base", "QC", @nil DimensionDataCache.DimensionData)]
       (DimensionDataCache.on_fetched [] "Base" "ON" on_rows))
    (Some "Base") (Some "ON") = DimensionDataCache.UseCached on_rows.
Proof.
  assert (Hl : Forall (fun '(s', r', _) =>
                 DimensionDataCache.cache_key s' r' <> DimensionDataCache.cache_key "Base" "ON")
                 [("Base", "QC", @nil DimensionDataCache.DimensionData)])
    by (apply Forall_cons; [vm_compute; discriminate | apply Forall_nil]).
  split; [discriminate|]. split; [discriminate|]. split; [exact Hl|].
  apply useDimensionData_revisit_cached; [discriminate | discriminate | exact Hl].
Defined.
